(** * alpaca_lora_4bit: quantized linear layers and their autograd rule

    A shallow embedding of [Finetune4bConfig.py] and [autograd_4bit.py].
    Python integers are [Z] ([//] is floor division, i.e. [Z.div]), raised
    exceptions are the [Raise] side of an error monad, the module-level
    globals of [autograd_4bit.py] are a record threaded through the
    functions that read or rebind them, and an [nn.Module] hierarchy is a
    tree.  The numeric kernels ([matmul_utils_4bit], [triton_utils]) are
    external: they are taken as an interface. *)

From Stdlib Require Import QArith.
From stdpp Require Import base numbers strings list gmap.

Local Open Scope Z_scope.

(** ** Exceptions and the error monad *)

Inductive exn :=
  | ValueError (msg : string)
  | NotImplementedError
  | UnboundLocalError (var : string)
  | AttributeError (attr : string)
  | NameError (name : string)
  | AssertionError
  | ZeroDivisionError
  | RuntimeError (msg : string)
  | RecursionError.

Inductive result (A : Type) :=
  | Ok (a : A)
  | Raise (e : exn).
Arguments Ok {A} a.
Arguments Raise {A} e.

Global Instance result_ret : MRet result := fun A a => Ok a.
Global Instance result_bind : MBind result := fun A B f r =>
  match r with
  | Ok a => f a
  | Raise e => Raise e
  end.

Global Instance exn_eq_dec : EqDecision exn.
Proof. solve_decision. Defined.

(** [for x in l: ...] where the body may raise and yields a new value
    for the element. *)
Definition for_each {A B} (f : A -> result B) : list A -> result (list B) :=
  fix go (l : list A) : result (list B) :=
    match l with
    | [] => Ok []
    | x :: l' => y ← f x; ys ← go l'; Ok (y :: ys)
    end.

(** Python integer operators that can raise. *)
Definition floordiv (a b : Z) : result Z :=
  if decide (b = 0) then Raise ZeroDivisionError else Ok (a `div` b).

(** [math.ceil(a / b)] on integers, the quotient taken exactly (the
    rounding of the float division on integers beyond 2^53 is left out). *)
Definition ceil_truediv (a b : Z) : result Z :=
  if decide (b = 0) then Raise ZeroDivisionError else Ok (- ((- a) `div` b)).

(** [range(n)] *)
Definition range (n : Z) : list Z := Z.of_nat <$> seq 0 (Z.to_nat n).

(** ** Finetune4bConfig.py *)

Module Finetune4bConfig.

(** The value stored in [val_set_size]: [int(v)] or [float(v)]. *)
Inductive number :=
  | PyInt (n : Z)
  | PyFloat (q : Q).

Record t := {
  dataset : string;
  ds_type : string;
  lora_out_dir : string;
  lora_apply_dir : string;
  llama_q4_config_dir : string;
  llama_q4_model : string;
  mbatch_size : Z;
  batch_size : Z;
  gradient_accumulation_steps : Z;
  epochs : Z;
  lr : Q;
  cutoff_len : Z;
  lora_r : Z;
  lora_alpha : Z;
  lora_dropout : Q;
  val_set_size : number;
  warmup_steps : Z;
  save_steps : Z;
  save_total_limit : Z;
  logging_steps : Z;
  checkpoint : bool;
  skip : bool;
}.

(** [int(x)] on a float truncates toward zero. *)
Definition int_of_float (q : Q) : Z := Z.quot (Qnum q) (Z.pos (Qden q)).

Definition __init__ (dataset ds_type lora_out_dir lora_apply_dir
                     llama_q4_config_dir llama_q4_model : string)
                    (mbatch_size batch_size epochs : Z) (lr : Q)
                    (cutoff_len lora_r lora_alpha : Z) (lora_dropout : Q)
                    (val_set_size : Q)
                    (warmup_steps save_steps save_total_limit logging_steps : Z)
                    (checkpoint skip : bool) : result t :=
  gradient_accumulation_steps ← floordiv batch_size mbatch_size;
  Ok {| dataset := dataset;
        ds_type := ds_type;
        lora_out_dir := lora_out_dir;
        lora_apply_dir := lora_apply_dir;
        llama_q4_config_dir := llama_q4_config_dir;
        llama_q4_model := llama_q4_model;
        mbatch_size := mbatch_size;
        batch_size := batch_size;
        gradient_accumulation_steps := gradient_accumulation_steps;
        epochs := epochs;
        lr := lr;
        cutoff_len := cutoff_len;
        lora_r := lora_r;
        lora_alpha := lora_alpha;
        lora_dropout := lora_dropout;
        val_set_size := if Qlt_le_dec 1 val_set_size
                        then PyInt (int_of_float val_set_size)
                        else PyFloat val_set_size;
        warmup_steps := warmup_steps;
        save_steps := save_steps;
        save_total_limit := save_total_limit;
        logging_steps := logging_steps;
        checkpoint := checkpoint;
        skip := skip |}.

End Finetune4bConfig.

(** ** Tensors

    A tensor is its dtype, its shape, whether it requires a gradient and
    its storage.  [torch.empty] leaves the storage uninitialised; any
    other storage is the sequence of its elements (the integer values of
    an integer tensor, the raw encodings of a floating-point one). *)

Inductive dtype := Float16 | Float32 | Int32.

Global Instance dtype_eq_dec : EqDecision dtype.
Proof. solve_decision. Defined.

Definition is_floating_point_dtype (d : dtype) : bool :=
  match d with
  | Float16 | Float32 => true
  | Int32 => false
  end.

Inductive storage :=
  | Uninit
  | Elems (l : list Z).

Global Instance storage_eq_dec : EqDecision storage.
Proof. solve_decision. Defined.

Record tensor := {
  t_dtype : dtype;
  t_shape : list Z;
  t_requires_grad : bool;
  t_storage : storage;
}.

Global Instance tensor_eq_dec : EqDecision tensor.
Proof. solve_decision. Defined.

Definition is_floating_point (t : tensor) : bool :=
  is_floating_point_dtype (t_dtype t).

(** [torch.empty(shape, dtype=dtype)]: a negative dimension is refused. *)
Definition torch_empty (shape : list Z) (d : dtype) : result tensor :=
  if decide (Forall (fun n => 0 <= n) shape)
  then Ok {| t_dtype := d; t_shape := shape;
             t_requires_grad := false; t_storage := Uninit |}
  else Raise (RuntimeError "Trying to create tensor with negative dimension").

Definition int32_min : Z := - 2 ^ 31.
Definition int32_max : Z := 2 ^ 31 - 1.

(** [torch.tensor(l, dtype=torch.int32)] on a list of Python integers: a
    value that does not fit the dtype is refused. *)
Definition torch_tensor_int32 (l : list Z) : result tensor :=
  if decide (Forall (fun v => int32_min <= v <= int32_max) l)
  then Ok {| t_dtype := Int32; t_shape := [Z.of_nat (length l)];
             t_requires_grad := false; t_storage := Elems l |}
  else Raise (RuntimeError "value cannot be converted to type int32 without overflow").

(** The dtype [torch.empty] uses when none is given. *)
Definition default_dtype : dtype := Float32.

(** ** External capabilities

    [matmul_utils_4bit] (imported as [mm4b]) and [triton_utils] (imported
    as [tu]) provide the numeric kernels; [torch] provides dtype
    conversion of a storage, the in-place addition [out += bias] and the
    input cast of [custom_fwd(cast_inputs=torch.float16)].  None of them
    is defined in [autograd_4bit.py]; every kernel may raise. *)

Class External := {
  _matmul4bit_v1_recons :
    tensor -> tensor -> tensor -> tensor -> bool -> result tensor;
  _matmul4bit_v2_recons :
    tensor -> tensor -> tensor -> tensor -> option tensor -> bool -> result tensor;
  _matmul2bit_v2_recons :
    tensor -> tensor -> tensor -> tensor -> option tensor -> bool -> result tensor;
  matmul4bit :
    tensor -> tensor -> tensor -> tensor -> option tensor -> option Z -> result tensor;
  triton_matmul :
    tensor -> tensor -> tensor -> tensor -> option tensor -> N -> Z -> result tensor;
  triton_matmul_transpose :
    tensor -> tensor -> tensor -> tensor -> option tensor -> N -> Z -> result tensor;
  convert_storage : dtype -> dtype -> storage -> storage;
  iadd : tensor -> tensor -> result tensor;
  cast_inputs : tensor -> tensor;
}.

(** [t.half()] and [t.float()]: a tensor that already has the dtype is
    returned as it is. *)
Definition tensor_to `{External} (d : dtype) (t : tensor) : tensor :=
  if decide (t_dtype t = d) then t
  else {| t_dtype := d; t_shape := t_shape t;
          t_requires_grad := t_requires_grad t;
          t_storage := convert_storage (t_dtype t) d (t_storage t) |}.

Definition half `{External} : tensor -> tensor := tensor_to Float16.
Definition float `{External} : tensor -> tensor := tensor_to Float32.

(** [output.clone()]: a new tensor with the same contents. *)
Definition clone (t : tensor) : tensor := t.

(** ** The autograd operators *)

Inductive autograd_fn :=
  | AutogradMatmul4bitNotImplemented
  | AutogradMatmul4bitCuda
  | AutogradMatmul2bitCuda
  | AutogradMatmul4bitTriton.

Global Instance autograd_fn_eq_dec : EqDecision autograd_fn.
Proof. solve_decision. Defined.

(** The differentiation context [ctx].  [needs_input_grad0] is slot 0 of
    [ctx.needs_input_grad], the only slot the code reads. *)
Record Ctx := {
  saved_tensors : option (tensor * tensor * tensor * option tensor);
  ctx_bits : option N;
  ctx_maxq : option Z;
  needs_input_grad0 : bool;
}.

Definition new_ctx (needs0 : bool) : Ctx :=
  {| saved_tensors := None; ctx_bits := None; ctx_maxq := None;
     needs_input_grad0 := needs0 |}.

Definition save_for_backward (ctx : Ctx) (a b c : tensor) (d : option tensor) : Ctx :=
  {| saved_tensors := Some (a, b, c, d); ctx_bits := ctx_bits ctx;
     ctx_maxq := ctx_maxq ctx; needs_input_grad0 := needs_input_grad0 ctx |}.

Definition set_bits_maxq (ctx : Ctx) (bits : N) (maxq : Z) : Ctx :=
  {| saved_tensors := saved_tensors ctx; ctx_bits := Some bits;
     ctx_maxq := Some maxq; needs_input_grad0 := needs_input_grad0 ctx |}.

(** [a, b, c, d = ctx.saved_tensors] *)
Definition unpack_saved (ctx : Ctx) : result (tensor * tensor * tensor * option tensor) :=
  match saved_tensors ctx with
  | Some s => Ok s
  | None => Raise (ValueError "not enough values to unpack")
  end.

Definition get_attr {A} (name : string) (a : option A) : result A :=
  match a with
  | Some v => Ok v
  | None => Raise (AttributeError name)
  end.

(** Reading a local variable that may not have been assigned. *)
Definition read_local {A} (name : string) (v : option A) : result A :=
  match v with
  | Some a => Ok a
  | None => Raise (UnboundLocalError name)
  end.

(** The tuple a [backward] returns: one gradient slot per [forward]
    argument [(x, qweight, scales, zeros, g_idx, bits, maxq)]. *)
Definition grads := list (option tensor).

Section Operators.
Context `{External}.

Definition AutogradMatmul4bitNotImplemented_forward
    (ctx : Ctx) (x qweight scales zeros : tensor) (g_idx : option tensor)
    (bits : N) (maxq : Z) : result (Ctx * tensor) :=
  Raise NotImplementedError.

Definition AutogradMatmul4bitNotImplemented_backward
    (ctx : Ctx) (grad_output : tensor) : result grads :=
  Raise NotImplementedError.

Definition AutogradMatmul4bitCuda_forward
    (ctx : Ctx) (x qweight scales zeros : tensor) (g_idx : option tensor)
    (bits : N) (maxq : Z) : result (Ctx * tensor) :=
  let ctx := save_for_backward ctx qweight scales zeros g_idx in
  output ← match g_idx with
           | None => _matmul4bit_v1_recons x qweight scales zeros false
           | Some _ => _matmul4bit_v2_recons x qweight scales zeros g_idx false
           end;
  let output := clone output in
  Ok (ctx, output).

Definition AutogradMatmul4bitCuda_backward
    (ctx : Ctx) (grad_output : tensor) : result grads :=
  '(qweight, scales, zeros, g_idx) ← unpack_saved ctx;
  grad ← (if needs_input_grad0 ctx then
            g ← match g_idx with
                | None => _matmul4bit_v1_recons grad_output qweight scales zeros true
                | Some _ => _matmul4bit_v2_recons grad_output qweight scales zeros g_idx true
                end;
            Ok (Some g)
          else Ok None);
  grad ← read_local "grad" grad;
  Ok [Some grad; None; None; None; None; None; None].

Definition AutogradMatmul2bitCuda_forward
    (ctx : Ctx) (x qweight scales zeros : tensor) (g_idx : option tensor)
    (bits : N) (maxq : Z) : result (Ctx * tensor) :=
  let ctx := save_for_backward ctx qweight scales zeros g_idx in
  output ← _matmul2bit_v2_recons x qweight scales zeros g_idx false;
  let output := clone output in
  Ok (ctx, output).

Definition AutogradMatmul2bitCuda_backward
    (ctx : Ctx) (grad_output : tensor) : result grads :=
  '(qweight, scales, zeros, g_idx) ← unpack_saved ctx;
  grad ← (if needs_input_grad0 ctx then
            g ← _matmul2bit_v2_recons grad_output qweight scales zeros g_idx true;
            Ok (Some g)
          else Ok None);
  grad ← read_local "grad" grad;
  Ok [Some grad; None; None; None; None; None; None].

Definition AutogradMatmul4bitTriton_forward
    (ctx : Ctx) (x qweight scales qzeros : tensor) (g_idx : option tensor)
    (bits : N) (maxq : Z) : result (Ctx * tensor) :=
  output ← triton_matmul x qweight scales qzeros g_idx bits maxq;
  let ctx := save_for_backward ctx qweight scales qzeros g_idx in
  let ctx := set_bits_maxq ctx bits maxq in
  let output := clone output in
  Ok (ctx, output).

Definition AutogradMatmul4bitTriton_backward
    (ctx : Ctx) (grad_output : tensor) : result grads :=
  '(qweight, scales, qzeros, g_idx) ← unpack_saved ctx;
  bits ← get_attr "bits" (ctx_bits ctx);
  maxq ← get_attr "maxq" (ctx_maxq ctx);
  let grad_input : option tensor := None in
  grad_input ← (if needs_input_grad0 ctx then
                  g ← triton_matmul_transpose grad_output qweight scales qzeros g_idx bits maxq;
                  Ok (Some g)
                else Ok grad_input);
  Ok [grad_input; None; None; None; None; None; None].

Definition forward_of (fn : autograd_fn) :=
  match fn with
  | AutogradMatmul4bitNotImplemented => AutogradMatmul4bitNotImplemented_forward
  | AutogradMatmul4bitCuda => AutogradMatmul4bitCuda_forward
  | AutogradMatmul2bitCuda => AutogradMatmul2bitCuda_forward
  | AutogradMatmul4bitTriton => AutogradMatmul4bitTriton_forward
  end.

Definition backward_of (fn : autograd_fn) :=
  match fn with
  | AutogradMatmul4bitNotImplemented => AutogradMatmul4bitNotImplemented_backward
  | AutogradMatmul4bitCuda => AutogradMatmul4bitCuda_backward
  | AutogradMatmul2bitCuda => AutogradMatmul2bitCuda_backward
  | AutogradMatmul4bitTriton => AutogradMatmul4bitTriton_backward
  end.

(** [fn.apply(x, qweight, scales, zeros, g_idx, bits, maxq)].  The
    engine hands [forward] a context whose [needs_input_grad[0]] says
    whether [x] requires a gradient, [custom_fwd] casts the tensor
    arguments, and the output remembers [(fn, ctx)] as the node
    [backward] will be called on when gradients are being tracked. *)
Definition apply (grad_enabled : bool) (fn : autograd_fn)
    (x qweight scales zeros : tensor) (g_idx : option tensor)
    (bits : N) (maxq : Z) : result (tensor * option (autograd_fn * Ctx)) :=
  let ctx := new_ctx (grad_enabled && t_requires_grad x) in
  '(ctx, output) ← forward_of fn ctx (cast_inputs x) (cast_inputs qweight)
                     (cast_inputs scales) (cast_inputs zeros)
                     (cast_inputs <$> g_idx) bits maxq;
  Ok (output, if grad_enabled then Some (fn, ctx) else None).

End Operators.

(** ** Module-level state of [autograd_4bit.py]

    [bound] holds, among the names that exist only when an import
    succeeded ([mm4b], [tu] and the classes defined after them), those
    that are bound in [globals()]. *)

Record Globals := {
  bound : gset string;
  gptq_backend_loaded : bool;
  triton_backend_loaded : bool;
  AutogradMatmul4bit : autograd_fn;
  AutogradMatmul2bit : autograd_fn;
  backend : option string;
}.

Definition is_triton_backend_available (g : Globals) : bool :=
  bool_decide ("AutogradMatmul4bitTriton" ∈ bound g).

Definition is_gptq_backend_available (g : Globals) : bool :=
  bool_decide ("AutogradMatmul4bitCuda" ∈ bound g).

(** Executing the module body: the two [try: import ...] blocks, then the
    default bindings.  The arguments say whether [matmul_utils_4bit] and
    [triton_utils] can be imported. *)
Definition module_init (mm4b_importable tu_importable : bool) : Globals :=
  let g := {| bound := ∅; gptq_backend_loaded := false;
              triton_backend_loaded := false;
              AutogradMatmul4bit := AutogradMatmul4bitNotImplemented;
              AutogradMatmul2bit := AutogradMatmul4bitNotImplemented;
              backend := None |} in
  let g := if mm4b_importable
           then {| bound := {["mm4b"; "AutogradMatmul4bitCuda"; "AutogradMatmul2bitCuda"]} ∪ bound g;
                   gptq_backend_loaded := true;
                   triton_backend_loaded := triton_backend_loaded g;
                   AutogradMatmul4bit := AutogradMatmul4bit g;
                   AutogradMatmul2bit := AutogradMatmul2bit g;
                   backend := backend g |}
           else g in
  let g := if tu_importable
           then {| bound := {["tu"; "AutogradMatmul4bitTriton"]} ∪ bound g;
                   gptq_backend_loaded := gptq_backend_loaded g;
                   triton_backend_loaded := true;
                   AutogradMatmul4bit := AutogradMatmul4bit g;
                   AutogradMatmul2bit := AutogradMatmul2bit g;
                   backend := backend g |}
           else g in
  let g := {| bound := bound g; gptq_backend_loaded := gptq_backend_loaded g;
              triton_backend_loaded := triton_backend_loaded g;
              AutogradMatmul4bit := AutogradMatmul4bitNotImplemented;
              AutogradMatmul2bit := AutogradMatmul4bitNotImplemented;
              backend := None |} in
  if is_gptq_backend_available g then
    {| bound := bound g; gptq_backend_loaded := gptq_backend_loaded g;
       triton_backend_loaded := triton_backend_loaded g;
       AutogradMatmul4bit := AutogradMatmul4bitCuda;
       AutogradMatmul2bit := AutogradMatmul2bitCuda;
       backend := Some "cuda" |}
  else if is_triton_backend_available g then
    {| bound := bound g; gptq_backend_loaded := gptq_backend_loaded g;
       triton_backend_loaded := triton_backend_loaded g;
       AutogradMatmul4bit := AutogradMatmul4bitTriton;
       AutogradMatmul2bit := AutogradMatmul2bit g;
       backend := Some "triton" |}
  else g.

(** The two [global] names [switch_backend_to] assigns. *)
Definition rebind (g : Globals) (fn : autograd_fn) (b : string) : Globals :=
  {| bound := bound g; gptq_backend_loaded := gptq_backend_loaded g;
     triton_backend_loaded := triton_backend_loaded g;
     AutogradMatmul4bit := fn;
     AutogradMatmul2bit := AutogradMatmul2bit g;
     backend := Some b |}.

Definition switch_backend_to (g : Globals) (to_backend : string) : result Globals :=
  if decide (to_backend = "cuda") then
    if negb (is_gptq_backend_available g) then
      Raise (ValueError "quant_cuda not found. Please reinstall with pip install .")
    else Ok (rebind g AutogradMatmul4bitCuda "cuda")
  else if decide (to_backend = "triton") then
    if negb (is_triton_backend_available g) then
      Raise (ValueError "Triton not found. Please install triton")
    else Ok (rebind g AutogradMatmul4bitTriton "triton")
  else Raise (ValueError "Backend not supported.").

(** Reading a module-level name. *)
Definition global_name (g : Globals) (name : string) : result unit :=
  if bool_decide (name ∈ bound g) then Ok () else Raise (NameError name).

Definition assert (b : bool) : result unit :=
  if b then Ok () else Raise AssertionError.

Section Dispatch.
Context `{External}.

Definition matmul4bit_with_backend (g : Globals)
    (x qweight scales qzeros : tensor) (g_idx : option tensor)
    (bits : N) (maxq : Z) (groupsize : option Z) : result tensor :=
  if decide (backend g = Some "cuda") then
    _ ← global_name g "mm4b";
    matmul4bit x qweight scales qzeros g_idx groupsize
  else if decide (backend g = Some "triton") then
    _ ← assert (bool_decide (t_dtype qzeros = Int32));
    _ ← global_name g "tu";
    triton_matmul x qweight scales qzeros g_idx bits maxq
  else Raise (ValueError "Backend not supported.").

End Dispatch.

(** ** The quantized linear module

    A buffer that exists only in one layout ([zeros] in the v1 layout,
    [qzeros] in the grouped one) is [None] when the attribute is absent;
    [g_idx] is always an attribute, with value [None] in the v1 layout. *)

Module Autograd4bitQuantLinear.

Record t := {
  in_features : Z;
  out_features : Z;
  bits : N;
  maxq : Z;
  groupsize : Z;
  is_v1_model : bool;
  disable_bias : bool;
  zeros : option tensor;
  qzeros : option tensor;
  scales : tensor;
  g_idx : option tensor;
  bias : tensor;
  qweight : tensor;
}.

Global Instance eq_dec : EqDecision t.
Proof. solve_decision. Defined.

Definition __init__ (in_features out_features : Z) (groupsize : Z)
    (is_v1_model : bool) (bits : N) : result t :=
  let maxq := 2 ^ Z.of_N bits - 1 in
  let groupsize := if decide (groupsize ≠ -1) then groupsize else in_features in
  '(zeros, qzeros, scales, g_idx) ←
    (if is_v1_model then
       zeros ← torch_empty [out_features; 1] default_dtype;
       scales ← torch_empty [out_features; 1] default_dtype;
       Ok (Some zeros, None, scales, None)
     else
       n_groups ← ceil_truediv in_features groupsize;
       qzeros ← torch_empty [n_groups; out_features `div` 256 * (Z.of_N bits * 8)] Int32;
       n_groups ← ceil_truediv in_features groupsize;
       scales ← torch_empty [n_groups; out_features] default_dtype;
       idx ← for_each (fun i => floordiv i groupsize) (range in_features);
       g_idx ← torch_tensor_int32 idx;
       Ok (None, Some qzeros, scales, Some g_idx));
  bias ← torch_empty [out_features] default_dtype;
  qweight ← torch_empty [in_features `div` 256 * (Z.of_N bits * 8); out_features] Int32;
  Ok {| in_features := in_features;
        out_features := out_features;
        bits := bits;
        maxq := maxq;
        groupsize := groupsize;
        is_v1_model := is_v1_model;
        disable_bias := false;
        zeros := zeros;
        qzeros := qzeros;
        scales := scales;
        g_idx := g_idx;
        bias := bias;
        qweight := qweight |}.

Section Forward.
Context `{External}.

Definition forward (g : Globals) (grad_enabled : bool) (self : t)
    (x : tensor) : result (tensor * option (autograd_fn * Ctx)) :=
  '(out, node) ←
    (if decide (bits self = 4%N) then
       if grad_enabled then
         zp ← (if negb (is_v1_model self) then get_attr "qzeros" (qzeros self)
               else get_attr "zeros" (zeros self));
         apply grad_enabled (AutogradMatmul4bit g) x (qweight self) (scales self)
           zp (g_idx self) (bits self) (maxq self)
       else
         zp ← (if negb (is_v1_model self) then get_attr "qzeros" (qzeros self)
               else get_attr "zeros" (zeros self));
         out ← matmul4bit_with_backend g x (qweight self) (scales self)
                 zp (g_idx self) (bits self) (maxq self) (Some (groupsize self));
         Ok (out, None)
     else if decide (bits self = 2%N) then
       zp ← get_attr "qzeros" (qzeros self);
       apply grad_enabled (AutogradMatmul2bit g) x (qweight self) (scales self)
         zp (g_idx self) (bits self) (maxq self)
     else Raise (ValueError "Unsupported bitwidth."));
  out ← (if negb (disable_bias self) then iadd out (bias self) else Ok out);
  Ok (out, node).

End Forward.

End Autograd4bitQuantLinear.

(** ** Module trees

    An [nn.Module] other than the quantized one is described by what the
    functions below look at: its [in_features]/[out_features] attributes
    when it has them (as [nn.Linear] does), its own parameters and
    buffers by name, and its registered child modules by name.  Each
    module object occurs once in the tree, and names are unique within a
    module, as the keys of its [_modules] dictionary are.

    [dir(module)] is taken to list the parameters and buffers and then
    the children, each in the order of the lists (torch sorts the names
    and leaves out those that start with a digit; the order only decides
    which of several failing attributes raises first).  Attributes that
    are neither tensors nor modules (methods, flags, numbers) are left
    out: like a tensor they have no [in_features]. *)

#[local] Set Warnings "-register-all".
Inductive module :=
  | Quant (q : Autograd4bitQuantLinear.t)
  | Module (features : option (Z * Z)) (tensors : list (string * tensor))
           (children : list (string * module)).

(** [(tmp.in_features, tmp.out_features)] *)
Definition features_of (m : module) : result (Z * Z) :=
  match m with
  | Quant q => Ok (Autograd4bitQuantLinear.in_features q,
                   Autograd4bitQuantLinear.out_features q)
  | Module f _ _ => get_attr "in_features" f
  end.

(** [name + '.' + attr if name != '' else attr] *)
Definition qualify (name attr : string) : string :=
  if decide (name ≠ "") then name +:+ "." +:+ attr else attr.

Section Substitution.
Variable names : gset string.
Variables (groupsize : Z) (is_v1_model : bool) (bits : N).

(** The body of the first loop at an attribute that holds a tensor:
    [tmp.in_features] does not exist. *)
Definition visit_tensor (name : string) (entry : string * tensor)
    : result (string * tensor) :=
  let '(attr, tmp) := entry in
  let name1 := qualify name attr in
  if bool_decide (name1 ∈ names) then Raise (AttributeError "in_features")
  else Ok entry.

(** The body of the first loop at an attribute that holds a module. *)
Definition visit_attr (name : string) (entry : string * module)
    : result (string * module) :=
  let '(attr, tmp) := entry in
  let name1 := qualify name attr in
  if bool_decide (name1 ∈ names) then
    '(i, o) ← features_of tmp;
    q ← Autograd4bitQuantLinear.__init__ i o groupsize is_v1_model bits;
    Ok (attr, Quant q)
  else Ok entry.

(** The body of the second loop, [recurse] being the recursive call. *)
Definition descend (recurse : module -> string -> result module) (name : string)
    (entry : string * module) : result (string * module) :=
  let '(name1, child) := entry in
  child ← recurse child (qualify name name1);
  Ok (name1, child).

(** [fuel] bounds the depth of the recursion, as the interpreter's
    recursion limit does. *)
Fixpoint make_quant_for_4bit_autograd (fuel : nat) (m : module) (name : string)
    : result module :=
  match fuel with
  | O => Raise RecursionError
  | S fuel =>
      match m with
      | Quant _ => Ok m
      | Module f tensors children =>
          _ ← for_each (visit_tensor name) tensors;
          children ← for_each (visit_attr name) children;
          children ← for_each (descend (make_quant_for_4bit_autograd fuel) name)
                        children;
          Ok (Module f tensors children)
      end
  end.

End Substitution.

(** ** Precision conversion *)

Section Precision.
Context `{External}.

(** [nn.Module._apply(fn)]: [fn] on every parameter and buffer of the
    module and of its descendants.  The registered buffers of a quantized
    module are [zeros] or [qzeros], [scales], [g_idx] (when it is a
    tensor), [bias] and [qweight]. *)
Definition quant_apply (fn : tensor -> tensor) (q : Autograd4bitQuantLinear.t)
    : Autograd4bitQuantLinear.t :=
  {| Autograd4bitQuantLinear.in_features := Autograd4bitQuantLinear.in_features q;
     Autograd4bitQuantLinear.out_features := Autograd4bitQuantLinear.out_features q;
     Autograd4bitQuantLinear.bits := Autograd4bitQuantLinear.bits q;
     Autograd4bitQuantLinear.maxq := Autograd4bitQuantLinear.maxq q;
     Autograd4bitQuantLinear.groupsize := Autograd4bitQuantLinear.groupsize q;
     Autograd4bitQuantLinear.is_v1_model := Autograd4bitQuantLinear.is_v1_model q;
     Autograd4bitQuantLinear.disable_bias := Autograd4bitQuantLinear.disable_bias q;
     Autograd4bitQuantLinear.zeros := fn <$> Autograd4bitQuantLinear.zeros q;
     Autograd4bitQuantLinear.qzeros := fn <$> Autograd4bitQuantLinear.qzeros q;
     Autograd4bitQuantLinear.scales := fn (Autograd4bitQuantLinear.scales q);
     Autograd4bitQuantLinear.g_idx := fn <$> Autograd4bitQuantLinear.g_idx q;
     Autograd4bitQuantLinear.bias := fn (Autograd4bitQuantLinear.bias q);
     Autograd4bitQuantLinear.qweight := fn (Autograd4bitQuantLinear.qweight q) |}.

Fixpoint module_apply (fn : tensor -> tensor) (m : module) : module :=
  match m with
  | Quant q => Quant (quant_apply fn q)
  | Module f tensors children =>
      Module f ((fun e => (e.1, fn e.2)) <$> tensors)
               ((fun e => (e.1, module_apply fn e.2)) <$> children)
  end.

(** [model.half()] and [model.float()] cast the floating-point
    parameters and buffers only. *)
Definition module_half : module -> module :=
  module_apply (fun t => if is_floating_point t then half t else t).

Definition module_float : module -> module :=
  module_apply (fun t => if is_floating_point t then float t else t).

(** [for n, m in model.named_modules(): if isinstance(m, Autograd4bitQuantLinear): body(m)] *)
Fixpoint for_quant_modules
    (body : Autograd4bitQuantLinear.t -> result Autograd4bitQuantLinear.t)
    (m : module) : result module :=
  match m with
  | Quant q => q ← body q; Ok (Quant q)
  | Module f tensors children =>
      children ← for_each (fun e => c ← for_quant_modules body e.2; Ok (e.1, c)) children;
      Ok (Module f tensors children)
  end.

(** The three assignments of the loop body, [cast] being [.half()] or
    [.float()]. *)
Definition recast_buffers (cast : tensor -> tensor) (m : Autograd4bitQuantLinear.t)
    : result Autograd4bitQuantLinear.t :=
  zeros ← (if Autograd4bitQuantLinear.is_v1_model m then
             z ← get_attr "zeros" (Autograd4bitQuantLinear.zeros m);
             Ok (Some (cast z))
           else Ok (Autograd4bitQuantLinear.zeros m));
  Ok {| Autograd4bitQuantLinear.in_features := Autograd4bitQuantLinear.in_features m;
        Autograd4bitQuantLinear.out_features := Autograd4bitQuantLinear.out_features m;
        Autograd4bitQuantLinear.bits := Autograd4bitQuantLinear.bits m;
        Autograd4bitQuantLinear.maxq := Autograd4bitQuantLinear.maxq m;
        Autograd4bitQuantLinear.groupsize := Autograd4bitQuantLinear.groupsize m;
        Autograd4bitQuantLinear.is_v1_model := Autograd4bitQuantLinear.is_v1_model m;
        Autograd4bitQuantLinear.disable_bias := Autograd4bitQuantLinear.disable_bias m;
        Autograd4bitQuantLinear.zeros := zeros;
        Autograd4bitQuantLinear.qzeros := Autograd4bitQuantLinear.qzeros m;
        Autograd4bitQuantLinear.scales := cast (Autograd4bitQuantLinear.scales m);
        Autograd4bitQuantLinear.g_idx := Autograd4bitQuantLinear.g_idx m;
        Autograd4bitQuantLinear.bias := cast (Autograd4bitQuantLinear.bias m);
        Autograd4bitQuantLinear.qweight := Autograd4bitQuantLinear.qweight m |}.

Definition model_to_half (model : module) : result module :=
  let model := module_half model in
  for_quant_modules (recast_buffers half) model.

Definition model_to_float (model : module) : result module :=
  let model := module_float model in
  for_quant_modules (recast_buffers float) model.

End Precision.

(** ** What the specification calls the kernel interface

    [matmul_transpose] is the transpose-multiply of the operator's
    backend: the reconstruction kernels with [transpose=True] for the
    compiled backend (legacy or grouped rule according to [g_idx]), and
    [triton_matmul_transpose] for the JIT backend. *)

Definition matmul_transpose `{External} (fn : autograd_fn)
    (grad_output qweight scales zeros : tensor) (g_idx : option tensor)
    (bits : N) (maxq : Z) : result tensor :=
  match fn with
  | AutogradMatmul4bitNotImplemented => Raise NotImplementedError
  | AutogradMatmul4bitCuda =>
      match g_idx with
      | None => _matmul4bit_v1_recons grad_output qweight scales zeros true
      | Some _ => _matmul4bit_v2_recons grad_output qweight scales zeros g_idx true
      end
  | AutogradMatmul2bitCuda =>
      _matmul2bit_v2_recons grad_output qweight scales zeros g_idx true
  | AutogradMatmul4bitTriton =>
      triton_matmul_transpose grad_output qweight scales zeros g_idx bits maxq
  end.

(** The six slots of a gradient tuple after the activation slot. *)
Definition non_activation_slots (t : grads) : list (option tensor) := drop 1 t.

(** The zero-point buffer of a module: [zeros] in the v1 layout,
    [qzeros] otherwise. *)
Definition zero_point (self : Autograd4bitQuantLinear.t) : result tensor :=
  if Autograd4bitQuantLinear.is_v1_model self
  then get_attr "zeros" (Autograd4bitQuantLinear.zeros self)
  else get_attr "qzeros" (Autograd4bitQuantLinear.qzeros self).

(** The post-processing of [forward]: the bias is added unless disabled. *)
Definition add_bias `{External} (self : Autograd4bitQuantLinear.t) (out : tensor)
    : result tensor :=
  if Autograd4bitQuantLinear.disable_bias self then Ok out
  else iadd out (Autograd4bitQuantLinear.bias self).

(** The direct kernel of a backend, as [matmul4bit_with_backend] calls it. *)
Definition direct_kernel `{External} (b : string) (self : Autograd4bitQuantLinear.t)
    (x zp : tensor) : result tensor :=
  if decide (b = "cuda") then
    matmul4bit x (Autograd4bitQuantLinear.qweight self)
      (Autograd4bitQuantLinear.scales self) zp
      (Autograd4bitQuantLinear.g_idx self)
      (Some (Autograd4bitQuantLinear.groupsize self))
  else
    _ ← assert (bool_decide (t_dtype zp = Int32));
    triton_matmul x (Autograd4bitQuantLinear.qweight self)
      (Autograd4bitQuantLinear.scales self) zp
      (Autograd4bitQuantLinear.g_idx self)
      (Autograd4bitQuantLinear.bits self) (Autograd4bitQuantLinear.maxq self).

(** The error the specification calls [BackendUnavailable]. *)
Definition BackendUnavailable (b : string) : exn :=
  if decide (b = "cuda")
  then ValueError "quant_cuda not found. Please reinstall with pip install ."
  else ValueError "Triton not found. Please install triton".

(** The operator class that belongs to a backend name. *)
Definition operator_of_backend (b : string) : autograd_fn :=
  if decide (b = "cuda") then AutogradMatmul4bitCuda else AutogradMatmul4bitTriton.

(** Whether the native support of a backend was found when the module
    was loaded. *)
Definition backend_available (g : Globals) (b : string) : bool :=
  if decide (b = "cuda") then is_gptq_backend_available g
  else is_triton_backend_available g.

(** A run of [switch_backend_to] calls whose failures the caller
    catches: a failed call leaves the globals as they were. *)
Definition run_switches (g : Globals) (calls : list string) : Globals :=
  foldl (fun g to_backend =>
           match switch_backend_to g to_backend with
           | Ok g' => g'
           | Raise _ => g
           end) g calls.

(** The group size a module ends up with. *)
Definition effective_groupsize (in_features groupsize : Z) : Z :=
  if decide (groupsize ≠ -1) then groupsize else in_features.

(** A tensor as [torch.empty] returns it. *)
Definition empty_tensor (shape : list Z) (d : dtype) : tensor :=
  {| t_dtype := d; t_shape := shape; t_requires_grad := false; t_storage := Uninit |}.

(** The state the module can be in: every state reached from the load by
    backend switches binds [mm4b] with the CUDA class and [tu] with the
    Triton class. *)
Definition imports_consistent (g : Globals) : Prop :=
  (is_gptq_backend_available g = true -> "mm4b" ∈ bound g) /\
  (is_triton_backend_available g = true -> "tu" ∈ bound g).

(** ** Sample inputs

    A stand-in for the external kernels that records, in the one element
    of its output, which kernel ran and whether it ran transposed; and a
    few tensors. *)

Definition tagged (code : Z) (x : tensor) : result tensor :=
  Ok {| t_dtype := Float16; t_shape := t_shape x;
        t_requires_grad := t_requires_grad x; t_storage := Elems [code] |}.

Definition sample_external : External :=
  {| _matmul4bit_v1_recons x _ _ _ tr := tagged (if tr then 11 else 10) x;
     _matmul4bit_v2_recons x _ _ _ _ tr := tagged (if tr then 21 else 20) x;
     _matmul2bit_v2_recons x _ _ _ _ tr := tagged (if tr then 31 else 30) x;
     matmul4bit x _ _ _ _ _ := tagged 40 x;
     triton_matmul x _ _ _ _ _ _ := tagged 50 x;
     triton_matmul_transpose x _ _ _ _ _ _ := tagged 51 x;
     convert_storage _ _ s := s;
     iadd a _ := Ok a;
     cast_inputs t := t |}.

Definition sample_tensor (d : dtype) (rg : bool) (l : list Z) : tensor :=
  {| t_dtype := d; t_shape := [Z.of_nat (length l)];
     t_requires_grad := rg; t_storage := Elems l |}.

Definition sample_x : tensor := sample_tensor Float16 true [1; 2].
Definition sample_x_frozen : tensor := sample_tensor Float16 false [1; 2].
Definition sample_qweight : tensor := sample_tensor Int32 false [7; 7].
Definition sample_scales : tensor := sample_tensor Float32 false [3].
Definition sample_qzeros : tensor := sample_tensor Int32 false [5].
Definition sample_zeros : tensor := sample_tensor Float32 false [4].
Definition sample_g_idx : tensor := sample_tensor Int32 false [0; 0].
Definition sample_grad : tensor := sample_tensor Float16 false [9; 9].

(** A grouped-layout and a v1-layout module with loaded buffers. *)
Definition sample_quant : Autograd4bitQuantLinear.t :=
  {| Autograd4bitQuantLinear.in_features := 2;
     Autograd4bitQuantLinear.out_features := 1;
     Autograd4bitQuantLinear.bits := 4;
     Autograd4bitQuantLinear.maxq := 15;
     Autograd4bitQuantLinear.groupsize := 2;
     Autograd4bitQuantLinear.is_v1_model := false;
     Autograd4bitQuantLinear.disable_bias := false;
     Autograd4bitQuantLinear.zeros := None;
     Autograd4bitQuantLinear.qzeros := Some sample_qzeros;
     Autograd4bitQuantLinear.scales := sample_scales;
     Autograd4bitQuantLinear.g_idx := Some sample_g_idx;
     Autograd4bitQuantLinear.bias := sample_tensor Float32 false [6];
     Autograd4bitQuantLinear.qweight := sample_qweight |}.

Definition sample_quant_v1 : Autograd4bitQuantLinear.t :=
  {| Autograd4bitQuantLinear.in_features := 2;
     Autograd4bitQuantLinear.out_features := 1;
     Autograd4bitQuantLinear.bits := 4;
     Autograd4bitQuantLinear.maxq := 15;
     Autograd4bitQuantLinear.groupsize := 2;
     Autograd4bitQuantLinear.is_v1_model := true;
     Autograd4bitQuantLinear.disable_bias := false;
     Autograd4bitQuantLinear.zeros := Some sample_zeros;
     Autograd4bitQuantLinear.qzeros := None;
     Autograd4bitQuantLinear.scales := sample_scales;
     Autograd4bitQuantLinear.g_idx := None;
     Autograd4bitQuantLinear.bias := sample_tensor Float32 false [6];
     Autograd4bitQuantLinear.qweight := sample_qweight |}.

(** ** Looking into a module tree *)

(** [getattr(module, name)] for a registered child. *)
Definition lookup_child (name : string) (children : list (string * module))
    : option module :=
  snd <$> List.find (fun e => bool_decide (e.1 = name)) children.

(** The module reached from [m] along a path of child names. *)
Fixpoint submodule (m : module) (path : list string) : option module :=
  match path with
  | [] => Some m
  | name :: path =>
      match m with
      | Quant _ => None
      | Module _ _ children =>
          match lookup_child name children with
          | Some child => submodule child path
          | None => None
          end
      end
  end.

(** The number of nested calls a traversal of the tree needs below the
    root. *)
Fixpoint depth (m : module) : nat :=
  match m with
  | Quant _ => 0
  | Module _ _ children =>
      S (foldr (fun e acc => Nat.max (depth e.2) acc) 0%nat children)
  end.

(** The packed integer buffers of a quantized module hold integers. *)
Definition packed_integer (q : Autograd4bitQuantLinear.t) : Prop :=
  t_dtype (Autograd4bitQuantLinear.qweight q) = Int32 /\
  (forall t, Autograd4bitQuantLinear.qzeros q = Some t -> t_dtype t = Int32) /\
  (forall t, Autograd4bitQuantLinear.g_idx q = Some t -> t_dtype t = Int32).

(** What [model.half()] / [model.float()] do to one tensor. *)
Definition cast_floating `{External} (d : dtype) (t : tensor) : tensor :=
  if is_floating_point t then tensor_to d t else t.

(** The conversion to dtype [d], of which [model_to_half] and
    [model_to_float] are the two instances. *)
Definition convert_to `{External} (d : dtype) (model : module) : result module :=
  for_quant_modules (recast_buffers (tensor_to d)) (module_apply (cast_floating d) model).

(** What the specification asks of a conversion of [model] into
    [model'] with target dtype [d]: every floating-point parameter or
    buffer of an ordinary module is cast; in every quantized module
    [scales], [bias] and, in the v1 layout, [zeros] are converted to [d];
    and [qweight], [qzeros] and [g_idx], cast like any buffer when they
    are floating-point, are the same tensors as before when they hold
    integers. *)
Definition converted_to `{External} (d : dtype) (model model' : module) : Prop :=
  (forall path f tensors children,
     submodule model path = Some (Module f tensors children) ->
     exists children',
       submodule model' path
         = Some (Module f ((fun e => (e.1, cast_floating d e.2)) <$> tensors) children')) /\
  (forall path q,
     submodule model path = Some (Quant q) ->
     exists q',
       submodule model' path = Some (Quant q') /\
       Autograd4bitQuantLinear.scales q' = tensor_to d (Autograd4bitQuantLinear.scales q) /\
       t_dtype (Autograd4bitQuantLinear.scales q') = d /\
       Autograd4bitQuantLinear.bias q' = tensor_to d (Autograd4bitQuantLinear.bias q) /\
       t_dtype (Autograd4bitQuantLinear.bias q') = d /\
       (Autograd4bitQuantLinear.is_v1_model q = true ->
        exists z, Autograd4bitQuantLinear.zeros q = Some z /\
                  Autograd4bitQuantLinear.zeros q' = Some (tensor_to d z) /\
                  t_dtype (tensor_to d z) = d) /\
       Autograd4bitQuantLinear.qweight q'
         = cast_floating d (Autograd4bitQuantLinear.qweight q) /\
       Autograd4bitQuantLinear.qzeros q'
         = cast_floating d <$> Autograd4bitQuantLinear.qzeros q /\
       Autograd4bitQuantLinear.g_idx q'
         = cast_floating d <$> Autograd4bitQuantLinear.g_idx q /\
       (packed_integer q ->
        Autograd4bitQuantLinear.qweight q' = Autograd4bitQuantLinear.qweight q /\
        Autograd4bitQuantLinear.qzeros q' = Autograd4bitQuantLinear.qzeros q /\
        Autograd4bitQuantLinear.g_idx q' = Autograd4bitQuantLinear.g_idx q)).

(** Every v1-layout module of the tree has its [zeros] buffer. *)
Fixpoint zeros_present (m : module) : Prop :=
  match m with
  | Quant q =>
      Autograd4bitQuantLinear.is_v1_model q = true ->
      is_Some (Autograd4bitQuantLinear.zeros q)
  | Module _ _ children =>
      foldr (fun e acc => zeros_present e.2 /\ acc) True children
  end.

(** A host model whose [fc] already is a quantized module with loaded
    buffers, next to an ordinary linear layer. *)
Definition sample_linear : module :=
  Module (Some (256, 256))
    [("weight", sample_tensor Float32 true [1; 2]);
     ("bias", sample_tensor Float32 true [3])] [].

Definition sample_model : module :=
  Module None []
    [("fc", Quant sample_quant);
     ("block", Module None [] [("proj", sample_linear)])].


(** ** Finding the layers to quantize

    [type(module) in layers] looks at the class of a module, which the
    tree does not record: the test is taken as a predicate on modules
    ([layers] defaults to [[nn.Conv2d, nn.Linear]]).  The result is the
    dictionary [find_layers] builds, [res.update(d)] letting the entries
    of [d] override those of [res]. *)

Section FindLayers.
Variable in_layers : module -> bool.

Fixpoint find_layers (m : module) (name : string) : gmap string module :=
  if in_layers m then {[name := m]}
  else
    match m with
    | Quant _ => ∅
    | Module _ _ children =>
        foldl (fun res e => find_layers e.2 (qualify name e.1) ∪ res) ∅ children
    end.

End FindLayers.


(** A layer test for the samples: the ordinary modules that have
    [in_features], as [nn.Linear] has. *)
Definition sample_in_layers (m : module) : bool :=
  match m with
  | Module (Some _) _ _ => true
  | _ => false
  end.

(** A module flagged as v1 layout that has lost its [zeros] buffer. *)
Definition sample_quant_without_zeros : Autograd4bitQuantLinear.t :=
  {| Autograd4bitQuantLinear.in_features := 2;
     Autograd4bitQuantLinear.out_features := 1;
     Autograd4bitQuantLinear.bits := 4;
     Autograd4bitQuantLinear.maxq := 15;
     Autograd4bitQuantLinear.groupsize := 2;
     Autograd4bitQuantLinear.is_v1_model := true;
     Autograd4bitQuantLinear.disable_bias := false;
     Autograd4bitQuantLinear.zeros := None;
     Autograd4bitQuantLinear.qzeros := Some sample_qzeros;
     Autograd4bitQuantLinear.scales := sample_scales;
     Autograd4bitQuantLinear.g_idx := Some sample_g_idx;
     Autograd4bitQuantLinear.bias := sample_tensor Float32 false [6];
     Autograd4bitQuantLinear.qweight := sample_qweight |}.

(** The modules of a tree, the root first, as [named_modules()] yields
    them. *)
Fixpoint modules_of (m : module) : list module :=
  m :: match m with
       | Quant _ => []
       | Module _ _ children => foldr (fun e acc => modules_of e.2 ++ acc) [] children
       end.

(** The operator bound to [AutogradMatmul4bit] is the one of the backend
    named by [backend], whose native support was found; without a
    backend it is the placeholder and no native support was found. *)
Definition operator_matches_backend (g : Globals) : Prop :=
  match backend g with
  | Some b =>
      (b = "cuda" \/ b = "triton") /\
      AutogradMatmul4bit g = operator_of_backend b /\
      backend_available g b = true
  | None =>
      AutogradMatmul4bit g = AutogradMatmul4bitNotImplemented /\
      is_gptq_backend_available g = false /\
      is_triton_backend_available g = false
  end.

(** The channels of group [g] for group size [gs]. *)
Definition in_group (gs g c : Z) : Prop := gs * g <= c < gs * (g + 1).

(** * Properties *)

(** ** The training configuration *)

Lemma floordiv_ok (a b : Z) : b ≠ 0 -> floordiv a b = Ok (a `div` b).
Proof. intros Hb. unfold floordiv. by destruct (decide (b = 0)). Qed.


(** The quotient [a `div` b] is the floor of the rational [a / b]. *)
Lemma div_is_floor (a b : Z) :
  b ≠ 0 ->
  (0 < b -> b * (a `div` b) <= a < b * (a `div` b + 1)) /\
  (b < 0 -> b * (a `div` b + 1) < a <= b * (a `div` b)).
Proof.
  intros Hb. split; intros Hs.
  - pose proof (Z.mod_pos_bound a b Hs). pose proof (Z.div_mod a b Hb). lia.
  - pose proof (Z.mod_neg_bound a b Hs). pose proof (Z.div_mod a b Hb). lia.
Qed.

(** C10: with [mbatch_size] different from 0 the constructor returns,
    whatever the signs of the two sizes and whether or not one divides
    the other, and the stored [gradient_accumulation_steps] is the floor
    of [batch_size / mbatch_size]. *)
Theorem gradient_accumulation_steps_is_floor_division
    (dataset ds_type lora_out_dir lora_apply_dir llama_q4_config_dir
     llama_q4_model : string)
    (mbatch_size batch_size epochs : Z) (lr : Q)
    (cutoff_len lora_r lora_alpha : Z) (lora_dropout val_set_size : Q)
    (warmup_steps save_steps save_total_limit logging_steps : Z)
    (checkpoint skip : bool) :
  mbatch_size ≠ 0 ->
  exists cfg,
    Finetune4bConfig.__init__ dataset ds_type lora_out_dir lora_apply_dir
      llama_q4_config_dir llama_q4_model mbatch_size batch_size epochs lr
      cutoff_len lora_r lora_alpha lora_dropout val_set_size warmup_steps
      save_steps save_total_limit logging_steps checkpoint skip = Ok cfg /\
    Finetune4bConfig.mbatch_size cfg = mbatch_size /\
    Finetune4bConfig.batch_size cfg = batch_size /\
    let steps := Finetune4bConfig.gradient_accumulation_steps cfg in
    steps = batch_size `div` mbatch_size /\
    (0 < mbatch_size ->
       mbatch_size * steps <= batch_size < mbatch_size * (steps + 1)) /\
    (mbatch_size < 0 ->
       mbatch_size * (steps + 1) < batch_size <= mbatch_size * steps).
Proof.
  intros Hmb. unfold Finetune4bConfig.__init__.
  rewrite (floordiv_ok _ _ Hmb). cbn.
  eexists. split; [reflexivity|]. cbn.
  destruct (div_is_floor batch_size mbatch_size Hmb) as [Hpos Hneg].
  split; [reflexivity|]. split; [reflexivity|]. split; [reflexivity|].
  split; [exact Hpos | exact Hneg].
Qed.

Lemma gradient_accumulation_steps_is_floor_division_witness :
  (3 : Z) ≠ 0 /\
  exists cfg,
    Finetune4bConfig.__init__ "alpaca.json" "alpaca" "out" "" "cfg" "model.pt"
      3 (-7) 3 (2 # 10000) 256 8 16 (5 # 100) (2 # 10) 50 50 3 10
      false false = Ok cfg /\
    Finetune4bConfig.gradient_accumulation_steps cfg = -3.
Proof.
  split; [lia|].
  destruct (gradient_accumulation_steps_is_floor_division
              "alpaca.json" "alpaca" "out" "" "cfg" "model.pt"
              3 (-7) 3 (2 # 10000) 256 8 16 (5 # 100) (2 # 10) 50 50 3 10
              false false ltac:(lia)) as (cfg & Hc & _ & _ & Hs & _).
  exists cfg. split; [exact Hc|]. rewrite Hs. reflexivity.
Defined.

(** ** The backward rule of the autograd operators *)

Section Backward.
Context `{External}.

(** What [forward] leaves in the context. *)
Lemma forward_saves_weight_side (fn : autograd_fn) (ctx0 ctx : Ctx)
    (x qweight scales zeros : tensor) (g_idx : option tensor)
    (bits : N) (maxq : Z) (out : tensor) :
  forward_of fn ctx0 x qweight scales zeros g_idx bits maxq = Ok (ctx, out) ->
  saved_tensors ctx = Some (qweight, scales, zeros, g_idx) /\
  needs_input_grad0 ctx = needs_input_grad0 ctx0 /\
  (fn = AutogradMatmul4bitTriton ->
   ctx_bits ctx = Some bits /\ ctx_maxq ctx = Some maxq).
Proof.
  destruct fn; cbn; unfold AutogradMatmul4bitNotImplemented_forward,
    AutogradMatmul4bitCuda_forward, AutogradMatmul2bitCuda_forward,
    AutogradMatmul4bitTriton_forward; intros Hf.
  - discriminate.
  - destruct g_idx;
      [destruct (_matmul4bit_v2_recons _ _ _ _ _ _)
      |destruct (_matmul4bit_v1_recons _ _ _ _ _)];
      cbn in Hf; inversion Hf; subst; cbn; repeat split; discriminate.
  - destruct (_matmul2bit_v2_recons _ _ _ _ _ _);
      cbn in Hf; inversion Hf; subst; cbn; repeat split; discriminate.
  - destruct (triton_matmul _ _ _ _ _ _ _);
      cbn in Hf; inversion Hf; subst; cbn; repeat split; reflexivity.
Qed.

(** Every tuple a [backward] returns has seven slots, the last six
    [None]. *)
Lemma backward_non_activation_none (fn : autograd_fn) (ctx : Ctx)
    (grad_output : tensor) (t : grads) :
  backward_of fn ctx grad_output = Ok t ->
  length t = 7%nat /\ non_activation_slots t = replicate 6 None.
Proof.
  destruct fn; cbn; unfold AutogradMatmul4bitNotImplemented_backward,
    AutogradMatmul4bitCuda_backward, AutogradMatmul2bitCuda_backward,
    AutogradMatmul4bitTriton_backward, unpack_saved; intros Hb.
  - discriminate.
  - destruct (saved_tensors ctx) as [[[[qw sc] z] gi]|]; cbn in Hb; [|discriminate].
    destruct (needs_input_grad0 ctx); cbn in Hb; [|discriminate].
    destruct gi;
      [destruct (_matmul4bit_v2_recons _ _ _ _ _ _)
      |destruct (_matmul4bit_v1_recons _ _ _ _ _)];
      cbn in Hb; inversion Hb; subst; split; reflexivity.
  - destruct (saved_tensors ctx) as [[[[qw sc] z] gi]|]; cbn in Hb; [|discriminate].
    destruct (needs_input_grad0 ctx); cbn in Hb; [|discriminate].
    destruct (_matmul2bit_v2_recons _ _ _ _ _ _);
      cbn in Hb; inversion Hb; subst; split; reflexivity.
  - destruct (saved_tensors ctx) as [[[[qw sc] z] gi]|]; cbn in Hb; [|discriminate].
    destruct (ctx_bits ctx); cbn in Hb; [|discriminate].
    destruct (ctx_maxq ctx); cbn in Hb; [|discriminate].
    destruct (needs_input_grad0 ctx); cbn in Hb.
    + destruct (triton_matmul_transpose _ _ _ _ _ _ _);
        cbn in Hb; inversion Hb; subst; split; reflexivity.
    + inversion Hb; subst; split; reflexivity.
Qed.

(** With [needs_input_grad[0]] set, [backward] on the context of a
    [forward] is the transpose-multiply on the tensors that [forward]
    was given. *)
Lemma backward_is_matmul_transpose (fn : autograd_fn) (ctx : Ctx)
    (qweight scales zeros : tensor) (g_idx : option tensor)
    (bits : N) (maxq : Z) (grad_output : tensor) :
  saved_tensors ctx = Some (qweight, scales, zeros, g_idx) ->
  (fn = AutogradMatmul4bitTriton ->
   ctx_bits ctx = Some bits /\ ctx_maxq ctx = Some maxq) ->
  needs_input_grad0 ctx = true ->
  backward_of fn ctx grad_output =
    g ← matmul_transpose fn grad_output qweight scales zeros g_idx bits maxq;
    Ok [Some g; None; None; None; None; None; None].
Proof.
  intros Hs Ht Hn.
  destruct fn; cbn; unfold AutogradMatmul4bitNotImplemented_backward,
    AutogradMatmul4bitCuda_backward, AutogradMatmul2bitCuda_backward,
    AutogradMatmul4bitTriton_backward, unpack_saved; rewrite ?Hs, ?Hn; cbn.
  - reflexivity.
  - destruct g_idx;
      [destruct (_matmul4bit_v2_recons _ _ _ _ _ _)
      |destruct (_matmul4bit_v1_recons _ _ _ _ _)]; reflexivity.
  - destruct (_matmul2bit_v2_recons _ _ _ _ _ _); reflexivity.
  - destruct (Ht eq_refl) as [-> ->]; cbn.
    destruct (triton_matmul_transpose _ _ _ _ _ _ _); reflexivity.
Qed.

End Backward.

(** C1: a gradient tuple returned by the backward of the 4-bit CUDA, the
    2-bit CUDA or the 4-bit Triton operator has [None] in its six
    non-activation slots; and after a [forward], when the activation
    requires a gradient, [backward] is [matmul_transpose] of
    [grad_output] with the weight-side tensors [forward] saved, its
    result sitting in the activation slot. *)
Theorem backward_gradient_isolation `{External} (fn : autograd_fn) :
  fn ∈ [AutogradMatmul4bitCuda; AutogradMatmul2bitCuda; AutogradMatmul4bitTriton] ->
  (forall ctx grad_output t,
     backward_of fn ctx grad_output = Ok t ->
     length t = 7%nat /\ non_activation_slots t = replicate 6 None) /\
  (forall ctx0 x qweight scales zeros g_idx bits maxq ctx out grad_output,
     forward_of fn ctx0 x qweight scales zeros g_idx bits maxq = Ok (ctx, out) ->
     needs_input_grad0 ctx0 = true ->
     backward_of fn ctx grad_output =
       g ← matmul_transpose fn grad_output qweight scales zeros g_idx bits maxq;
       Ok [Some g; None; None; None; None; None; None]).
Proof.
  intros _. split.
  - intros ctx grad_output t. apply backward_non_activation_none.
  - intros ctx0 x qweight scales zeros g_idx bits maxq ctx out grad_output Hf Hn.
    destruct (forward_saves_weight_side _ _ _ _ _ _ _ _ _ _ _ Hf) as (Hs & Hn' & Ht).
    apply backward_is_matmul_transpose; [exact Hs | exact Ht | congruence].
Qed.

Lemma backward_gradient_isolation_witness :
  AutogradMatmul4bitTriton
    ∈ [AutogradMatmul4bitCuda; AutogradMatmul2bitCuda; AutogradMatmul4bitTriton] /\
  exists ctx out,
    @forward_of sample_external AutogradMatmul4bitTriton (new_ctx true)
      sample_x sample_qweight sample_scales sample_qzeros (Some sample_g_idx)
      4%N 15 = Ok (ctx, out) /\
    needs_input_grad0 (new_ctx true) = true /\
    @backward_of sample_external AutogradMatmul4bitTriton ctx sample_grad =
      Ok [Some {| t_dtype := Float16; t_shape := [2];
                  t_requires_grad := false; t_storage := Elems [51] |};
          None; None; None; None; None; None] /\
    non_activation_slots
      [Some {| t_dtype := Float16; t_shape := [2];
               t_requires_grad := false; t_storage := Elems [51] |};
       None; None; None; None; None; None] = replicate 6 None.
Proof.
  assert (Hin : AutogradMatmul4bitTriton
    ∈ [AutogradMatmul4bitCuda; AutogradMatmul2bitCuda; AutogradMatmul4bitTriton])
    by (do 2 apply list_elem_of_further; apply list_elem_of_here).
  split; [exact Hin|].
  destruct (@backward_gradient_isolation sample_external
              AutogradMatmul4bitTriton Hin) as [Hslots Hgrad].
  eexists _, _. split; [reflexivity|]. split; [reflexivity|].
  assert (Hb := Hgrad (new_ctx true) sample_x sample_qweight sample_scales
                  sample_qzeros (Some sample_g_idx) 4%N 15 _ _ sample_grad
                  eq_refl eq_refl).
  split; [exact Hb|].
  exact (proj2 (Hslots _ _ _ Hb)).
Defined.

(** C2 (the code departs from it): with [needs_input_grad[0]] unset, the
    two CUDA variants read the local [grad] that was never assigned and
    raise, where the Triton variant, which initialises [grad_input] to
    [None], returns seven empty slots. *)
Theorem backward_without_input_grad `{External}
    (qweight scales zeros : tensor) (g_idx : option tensor) (bits : N)
    (maxq : Z) (grad_output : tensor) :
  let ctx := save_for_backward (new_ctx false) qweight scales zeros g_idx in
  AutogradMatmul4bitCuda_backward ctx grad_output = Raise (UnboundLocalError "grad") /\
  AutogradMatmul2bitCuda_backward ctx grad_output = Raise (UnboundLocalError "grad") /\
  AutogradMatmul4bitTriton_backward (set_bits_maxq ctx bits maxq) grad_output =
    Ok [None; None; None; None; None; None; None].
Proof. repeat split. Qed.

(** The same through [apply]: a forward of the 4-bit CUDA operator on an
    activation that does not require a gradient succeeds, and the
    backward of the node it recorded raises. *)
Lemma cuda_backward_after_apply_raises :
  exists out ctx,
    @apply sample_external true AutogradMatmul4bitCuda sample_x_frozen
      sample_qweight sample_scales sample_qzeros (Some sample_g_idx) 4%N 15
      = Ok (out, Some (AutogradMatmul4bitCuda, ctx)) /\
    @backward_of sample_external AutogradMatmul4bitCuda ctx sample_grad
      = Raise (UnboundLocalError "grad").
Proof. eexists _, _. split; reflexivity. Qed.

(** ** Backend selection and the forward dispatch *)

Lemma available_after_load (mm4b_importable tu_importable : bool) :
  is_gptq_backend_available (module_init mm4b_importable tu_importable)
    = mm4b_importable /\
  is_triton_backend_available (module_init mm4b_importable tu_importable)
    = tu_importable.
Proof. destruct mm4b_importable, tu_importable; split; vm_compute; reflexivity. Qed.

Lemma switch_backend_to_inv (g g' : Globals) (to_backend : string) :
  switch_backend_to g to_backend = Ok g' ->
  (to_backend = "cuda" \/ to_backend = "triton") /\
  backend_available g to_backend = true /\
  g' = rebind g (operator_of_backend to_backend) to_backend.
Proof.
  unfold switch_backend_to, backend_available, operator_of_backend.
  destruct (decide (to_backend = "cuda")) as [->|Hc].
  - destruct (is_gptq_backend_available g); cbn; [|discriminate].
    intros [= <-]. auto.
  - destruct (decide (to_backend = "triton")) as [->|Ht]; [|discriminate].
    destruct (is_triton_backend_available g); cbn; [|discriminate].
    intros [= <-]. auto.
Qed.

Lemma run_switches_cons (g : Globals) (b : string) (calls : list string) :
  run_switches g (b :: calls) =
    run_switches (match switch_backend_to g b with
                  | Ok g' => g'
                  | Raise _ => g
                  end) calls.
Proof. reflexivity. Qed.

Lemma backend_name_cases (b : string) :
  b ∈ ["cuda"; "triton"] <-> b = "cuda" \/ b = "triton".
Proof. rewrite !elem_of_cons, elem_of_nil. tauto. Qed.

Lemma global_name_bound (g : Globals) (name : string) :
  name ∈ bound g -> global_name g name = Ok ().
Proof. intros Hn. unfold global_name. by rewrite bool_decide_eq_true_2. Qed.

Lemma imports_consistent_load (c t : bool) : imports_consistent (module_init c t).
Proof.
  destruct c, t; split; intros Ha; try (vm_compute in Ha; discriminate);
    apply (bool_decide_unpack _); vm_compute; exact I.
Qed.

Lemma imports_consistent_switch (g g' : Globals) (b : string) :
  imports_consistent g -> switch_backend_to g b = Ok g' -> imports_consistent g'.
Proof.
  intros Hc Hs. apply switch_backend_to_inv in Hs as (_ & _ & ->). exact Hc.
Qed.

Lemma imports_consistent_run (g : Globals) (calls : list string) :
  imports_consistent g -> imports_consistent (run_switches g calls).
Proof.
  revert g. induction calls as [|b calls IH]; intros g Hc; [exact Hc|].
  rewrite run_switches_cons. apply IH.
  destruct (switch_backend_to g b) eqn:Hs; [|exact Hc].
  eapply imports_consistent_switch; eauto.
Qed.

Section ForwardDispatch.
Context `{External}.

Lemma forward_bits4 (g : Globals) (grad_enabled : bool)
    (self : Autograd4bitQuantLinear.t) (x : tensor) :
  Autograd4bitQuantLinear.bits self = 4%N ->
  Autograd4bitQuantLinear.forward g grad_enabled self x =
    zp ← zero_point self;
    '(out, node) ←
      (if grad_enabled then
         apply true (AutogradMatmul4bit g) x
           (Autograd4bitQuantLinear.qweight self)
           (Autograd4bitQuantLinear.scales self) zp
           (Autograd4bitQuantLinear.g_idx self)
           (Autograd4bitQuantLinear.bits self)
           (Autograd4bitQuantLinear.maxq self)
       else
         out ← matmul4bit_with_backend g x
                 (Autograd4bitQuantLinear.qweight self)
                 (Autograd4bitQuantLinear.scales self) zp
                 (Autograd4bitQuantLinear.g_idx self)
                 (Autograd4bitQuantLinear.bits self)
                 (Autograd4bitQuantLinear.maxq self)
                 (Some (Autograd4bitQuantLinear.groupsize self));
         Ok (out, None));
    out ← add_bias self out;
    Ok (out, node).
Proof.
  intros Hb. unfold Autograd4bitQuantLinear.forward, zero_point, add_bias.
  rewrite Hb. cbn.
  destruct grad_enabled, (Autograd4bitQuantLinear.is_v1_model self); cbn;
    repeat match goal with
      | |- context [get_attr ?n ?a] => destruct (get_attr n a); cbn; [|reflexivity]
      | |- context [apply ?a ?b ?c ?d ?e ?f ?g ?h ?i] =>
          destruct (apply a b c d e f g h i) as [[? ?]|]; cbn; [|reflexivity]
      | |- context [matmul4bit_with_backend ?a ?b ?c ?d ?e ?f ?g ?h ?i] =>
          destruct (matmul4bit_with_backend a b c d e f g h i); cbn; [|reflexivity]
      end;
    destruct (Autograd4bitQuantLinear.disable_bias self); reflexivity.
Qed.


Lemma matmul4bit_with_backend_active (g : Globals) (b : string)
    (self : Autograd4bitQuantLinear.t) (x zp : tensor) :
  imports_consistent g ->
  backend g = Some b ->
  (b = "cuda" \/ b = "triton") ->
  backend_available g b = true ->
  matmul4bit_with_backend g x (Autograd4bitQuantLinear.qweight self)
    (Autograd4bitQuantLinear.scales self) zp
    (Autograd4bitQuantLinear.g_idx self)
    (Autograd4bitQuantLinear.bits self) (Autograd4bitQuantLinear.maxq self)
    (Some (Autograd4bitQuantLinear.groupsize self))
  = direct_kernel b self x zp.
Proof.
  intros [Hc Ht] Hb Hname Hav.
  unfold matmul4bit_with_backend, direct_kernel, backend_available in *.
  rewrite Hb. destruct Hname as [-> | ->].
  - rewrite decide_True by reflexivity. cbn in Hav.
    rewrite (global_name_bound _ _ (Hc Hav)). reflexivity.
  - rewrite decide_False by discriminate. rewrite decide_True by reflexivity.
    cbn in Hav. destruct (assert _); [|reflexivity]. cbn.
    rewrite (global_name_bound _ _ (Ht Hav)). reflexivity.
Qed.

End ForwardDispatch.




Lemma run_switches_bound (g : Globals) (calls : list string) :
  bound (run_switches g calls) = bound g /\
  AutogradMatmul2bit (run_switches g calls) = AutogradMatmul2bit g.
Proof.
  revert g. induction calls as [|b calls IH]; intros g; [split; reflexivity|].
  rewrite run_switches_cons.
  destruct (switch_backend_to g b) as [g'|] eqn:Hs; [|apply IH].
  apply switch_backend_to_inv in Hs as (_ & _ & ->).
  destruct (IH (rebind g (operator_of_backend b) b)) as [-> ->]. split; reflexivity.
Qed.

(** C5: [switch_backend_to] raises the unavailable-backend error for
    ['cuda'] or ['triton'] when that backend was not found at load time,
    raises for any other name, and otherwise rebinds the globals at
    once: [backend] is the requested name, and from then on a forward
    without gradient tracking on a 4-bit module is the direct kernel of
    that backend.  What was found at load time is what the imports gave,
    and no switch changes it. *)
Theorem switch_backend_to_contract `{External} (g : Globals) (to_backend : string) :
  (to_backend ∈ ["cuda"; "triton"] ->
   backend_available g to_backend = false ->
   switch_backend_to g to_backend = Raise (BackendUnavailable to_backend)) /\
  (to_backend ∉ ["cuda"; "triton"] ->
   switch_backend_to g to_backend = Raise (ValueError "Backend not supported.")) /\
  (to_backend ∈ ["cuda"; "triton"] ->
   backend_available g to_backend = true ->
   exists g',
     switch_backend_to g to_backend = Ok g' /\
     backend g' = Some to_backend /\
     AutogradMatmul4bit g' = operator_of_backend to_backend /\
     (imports_consistent g ->
      forall self x,
        Autograd4bitQuantLinear.bits self = 4%N ->
        Autograd4bitQuantLinear.forward g' false self x =
          (zp ← zero_point self;
           out ← direct_kernel to_backend self x zp;
           out ← add_bias self out;
           Ok (out, None)))) /\
  (forall mm4b_importable tu_importable calls,
     let g0 := run_switches (module_init mm4b_importable tu_importable) calls in
     backend_available g0 "cuda" = mm4b_importable /\
     backend_available g0 "triton" = tu_importable /\
     imports_consistent g0).
Proof.
  split; [|split; [|split]].
  - intros Hin Hav. apply backend_name_cases in Hin.
    unfold switch_backend_to, backend_available, BackendUnavailable in *.
    destruct (decide (to_backend = "cuda")) as [->|Hc].
    + rewrite Hav. reflexivity.
    + destruct (decide (to_backend = "triton")) as [->|Ht].
      * rewrite Hav. reflexivity.
      * tauto.
  - intros Hnin. unfold switch_backend_to.
    destruct (decide (to_backend = "cuda")) as [->|Hc];
      [exfalso; apply Hnin, backend_name_cases; auto|].
    destruct (decide (to_backend = "triton")) as [->|Ht];
      [exfalso; apply Hnin, backend_name_cases; auto|].
    reflexivity.
  - intros Hin Hav. apply backend_name_cases in Hin as Hname.
    exists (rebind g (operator_of_backend to_backend) to_backend).
    split; [|split; [reflexivity|split; [reflexivity|]]].
    + unfold switch_backend_to, backend_available, operator_of_backend in *.
      destruct (decide (to_backend = "cuda")) as [->|Hc].
      * rewrite Hav. reflexivity.
      * destruct (decide (to_backend = "triton")) as [->|Ht]; [|tauto].
        rewrite Hav. reflexivity.
    + intros Hc self x Hb. rewrite (forward_bits4 _ false self x Hb). cbn.
      destruct (zero_point self) as [zp|]; cbn; [|reflexivity].
      rewrite (matmul4bit_with_backend_active _ to_backend);
        [ | exact Hc | reflexivity | exact Hname | exact Hav].
      destruct (direct_kernel to_backend self x zp) as [y|]; cbn; [|reflexivity].
      destruct (add_bias self y); reflexivity.
  - intros c t calls g0. subst g0. unfold backend_available.
    rewrite decide_True by reflexivity. rewrite decide_False by discriminate.
    unfold is_gptq_backend_available, is_triton_backend_available.
    rewrite (proj1 (run_switches_bound _ calls)).
    destruct (available_after_load c t) as [Hc Ht].
    split; [exact Hc|]. split; [exact Ht|].
    apply imports_consistent_run, imports_consistent_load.
Qed.

Lemma switch_backend_to_contract_witness :
  "cuda" ∈ ["cuda"; "triton"] /\
  backend_available (module_init false true) "cuda" = false /\
  switch_backend_to (module_init false true) "cuda"
    = Raise (ValueError "quant_cuda not found. Please reinstall with pip install .") /\
  ("rocm" ∉ ["cuda"; "triton"]) /\
  switch_backend_to (module_init true true) "rocm"
    = Raise (ValueError "Backend not supported.") /\
  "triton" ∈ ["cuda"; "triton"] /\
  backend_available (module_init true true) "triton" = true /\
  imports_consistent (module_init true true) /\
  Autograd4bitQuantLinear.bits sample_quant = 4%N /\
  exists g',
    switch_backend_to (module_init true true) "triton" = Ok g' /\
    backend g' = Some "triton" /\
    AutogradMatmul4bit g' = AutogradMatmul4bitTriton /\
    exists out,
      @Autograd4bitQuantLinear.forward sample_external g' false sample_quant sample_x
        = Ok (out, None) /\
      t_storage out = Elems [50].
Proof.
  assert (Hc : "cuda" ∈ ["cuda"; "triton"]) by apply list_elem_of_here.
  assert (Ht : "triton" ∈ ["cuda"; "triton"])
    by (apply list_elem_of_further, list_elem_of_here).
  assert (Hr : "rocm" ∉ ["cuda"; "triton"])
    by (intros Hr; apply (bool_decide_pack _) in Hr; vm_compute in Hr; exact Hr).
  destruct (@switch_backend_to_contract sample_external (module_init false true) "cuda")
    as (Hun & _ & _ & _).
  destruct (@switch_backend_to_contract sample_external (module_init true true) "rocm")
    as (_ & Hns & _ & _).
  destruct (@switch_backend_to_contract sample_external (module_init true true) "triton")
    as (_ & _ & Hok & _).
  split; [exact Hc|]. split; [reflexivity|].
  split; [exact (Hun Hc eq_refl)|].
  split; [exact Hr|]. split; [exact (Hns Hr)|].
  split; [exact Ht|]. split; [reflexivity|].
  split; [apply imports_consistent_load|]. split; [reflexivity|].
  destruct (Hok Ht eq_refl) as (g' & Hs & Hb & Hop & Hfw).
  exists g'. split; [exact Hs|]. split; [exact Hb|]. split; [exact Hop|].
  specialize (Hfw (imports_consistent_load true true) sample_quant sample_x eq_refl).
  eexists. split; [rewrite Hfw; reflexivity|]. reflexivity.
Defined.

(** C9: a successful [switch_backend_to] changes nothing but
    [AutogradMatmul4bit] and [backend]; whatever switches are made after
    the load, [AutogradMatmul2bit] is what the load bound it to: the
    2-bit CUDA operator if [matmul_utils_4bit] was imported, the
    placeholder that always raises otherwise. *)
Theorem switch_backend_keeps_2bit_operator :
  (forall g to_backend g',
     switch_backend_to g to_backend = Ok g' ->
     AutogradMatmul2bit g' = AutogradMatmul2bit g /\
     bound g' = bound g /\
     gptq_backend_loaded g' = gptq_backend_loaded g /\
     triton_backend_loaded g' = triton_backend_loaded g) /\
  (forall mm4b_importable tu_importable calls,
     AutogradMatmul2bit (run_switches (module_init mm4b_importable tu_importable) calls)
       = AutogradMatmul2bit (module_init mm4b_importable tu_importable) /\
     AutogradMatmul2bit (module_init mm4b_importable tu_importable)
       = (if mm4b_importable then AutogradMatmul2bitCuda
          else AutogradMatmul4bitNotImplemented)) /\
  (forall `{External} ctx x qweight scales zeros g_idx bits maxq grad_output,
     forward_of AutogradMatmul4bitNotImplemented ctx x qweight scales zeros
       g_idx bits maxq = Raise NotImplementedError /\
     backward_of AutogradMatmul4bitNotImplemented ctx grad_output
       = Raise NotImplementedError).
Proof.
  split; [|split].
  - intros g b g' Hs. apply switch_backend_to_inv in Hs as (_ & _ & ->).
    repeat split.
  - intros c t calls. split; [apply run_switches_bound|].
    destruct c, t; vm_compute; reflexivity.
  - intros. split; reflexivity.
Qed.

Lemma switch_backend_keeps_2bit_operator_witness :
  exists g',
    switch_backend_to (module_init true true) "triton" = Ok g' /\
    AutogradMatmul4bit g' = AutogradMatmul4bitTriton /\
    AutogradMatmul2bit g' = AutogradMatmul2bitCuda.
Proof.
  eexists. split; [reflexivity|]. split; [reflexivity|].
  destruct switch_backend_keeps_2bit_operator as (Hstep & _ & _).
  destruct (Hstep (module_init true true) "triton" _ eq_refl) as (-> & _).
  reflexivity.
Defined.

(** ** Construction of the quantized linear module *)

Lemma for_each_total {A B} (f : A -> B) (l : list A) :
  for_each (fun a => Ok (f a)) l = Ok (f <$> l).
Proof. induction l as [|a l IH]; [reflexivity|]. cbn in *. rewrite IH. reflexivity. Qed.

Lemma for_each_ext {A B} (f g : A -> result B) (l : list A) :
  (forall a, f a = g a) -> for_each f l = for_each g l.
Proof.
  intros Hfg. induction l as [|a l IH]; [reflexivity|].
  cbn in *. rewrite Hfg, IH. reflexivity.
Qed.

Lemma group_indices (n gs : Z) :
  gs ≠ 0 ->
  for_each (fun i => floordiv i gs) (range n) = Ok ((fun i => i `div` gs) <$> range n).
Proof.
  intros Hgs. rewrite <- for_each_total. apply for_each_ext.
  intros i. apply floordiv_ok, Hgs.
Qed.

Lemma length_range (n : Z) : 0 <= n -> Z.of_nat (length (range n)) = n.
Proof. intros Hn. unfold range. rewrite length_fmap, length_seq. lia. Qed.

Lemma lookup_range (n i : Z) : 0 <= i < n -> range n !! Z.to_nat i = Some i.
Proof.
  intros Hi. unfold range. rewrite list_lookup_fmap.
  rewrite lookup_seq_lt by lia. cbn. f_equal. lia.
Qed.

Lemma elem_of_range (n i : Z) : i ∈ range n <-> 0 <= i < n.
Proof.
  unfold range. rewrite list_elem_of_fmap. split.
  - intros (k & -> & Hk). apply elem_of_seq in Hk. lia.
  - intros Hi. exists (Z.to_nat i). split; [lia|]. apply elem_of_seq. lia.
Qed.


Lemma torch_empty_ok (shape : list Z) (d : dtype) :
  Forall (fun n => 0 <= n) shape ->
  torch_empty shape d = Ok {| t_dtype := d; t_shape := shape;
                              t_requires_grad := false; t_storage := Uninit |}.
Proof. intros Hs. unfold torch_empty. by rewrite decide_True. Qed.

Lemma torch_empty_inv (shape : list Z) (d : dtype) (t : tensor) :
  torch_empty shape d = Ok t ->
  t = {| t_dtype := d; t_shape := shape;
         t_requires_grad := false; t_storage := Uninit |}.
Proof. unfold torch_empty. destruct (decide _); [|discriminate]. congruence. Qed.


Lemma torch_tensor_int32_inv (l : list Z) (t : tensor) :
  torch_tensor_int32 l = Ok t ->
  t = {| t_dtype := Int32; t_shape := [Z.of_nat (length l)];
         t_requires_grad := false; t_storage := Elems l |}.
Proof. unfold torch_tensor_int32. destruct (decide _); [|discriminate]. congruence. Qed.


Lemma init_v1_inv (i o gs : Z) (bits : N) (q : Autograd4bitQuantLinear.t) :
  Autograd4bitQuantLinear.__init__ i o gs true bits = Ok q ->
  q = {| Autograd4bitQuantLinear.in_features := i;
         Autograd4bitQuantLinear.out_features := o;
         Autograd4bitQuantLinear.bits := bits;
         Autograd4bitQuantLinear.maxq := 2 ^ Z.of_N bits - 1;
         Autograd4bitQuantLinear.groupsize := effective_groupsize i gs;
         Autograd4bitQuantLinear.is_v1_model := true;
         Autograd4bitQuantLinear.disable_bias := false;
         Autograd4bitQuantLinear.zeros := Some (empty_tensor [o; 1] Float32);
         Autograd4bitQuantLinear.qzeros := None;
         Autograd4bitQuantLinear.scales := empty_tensor [o; 1] Float32;
         Autograd4bitQuantLinear.g_idx := None;
         Autograd4bitQuantLinear.bias := empty_tensor [o] Float32;
         Autograd4bitQuantLinear.qweight :=
           empty_tensor [i `div` 256 * (Z.of_N bits * 8); o] Int32 |}.
Proof.
  unfold Autograd4bitQuantLinear.__init__, effective_groupsize, default_dtype.
  intros Hq.
  destruct (torch_empty [o; 1] Float32) as [z|] eqn:Hz; cbn in Hq; [|discriminate].
  destruct (torch_empty [o] Float32) as [b|] eqn:Hb; cbn in Hq; [|discriminate].
  destruct (torch_empty [_; o] Int32) as [w|] eqn:Hw; cbn in Hq; [|discriminate].
  apply torch_empty_inv in Hz, Hb, Hw. subst. injection Hq as <-. reflexivity.
Qed.

Lemma init_grouped_inv (i o gs : Z) (bits : N) (q : Autograd4bitQuantLinear.t) :
  Autograd4bitQuantLinear.__init__ i o gs false bits = Ok q ->
  let gs' := effective_groupsize i gs in
  let n_groups := - ((- i) `div` gs') in
  gs' ≠ 0 /\
  q = {| Autograd4bitQuantLinear.in_features := i;
         Autograd4bitQuantLinear.out_features := o;
         Autograd4bitQuantLinear.bits := bits;
         Autograd4bitQuantLinear.maxq := 2 ^ Z.of_N bits - 1;
         Autograd4bitQuantLinear.groupsize := gs';
         Autograd4bitQuantLinear.is_v1_model := false;
         Autograd4bitQuantLinear.disable_bias := false;
         Autograd4bitQuantLinear.zeros := None;
         Autograd4bitQuantLinear.qzeros :=
           Some (empty_tensor [n_groups; o `div` 256 * (Z.of_N bits * 8)] Int32);
         Autograd4bitQuantLinear.scales := empty_tensor [n_groups; o] Float32;
         Autograd4bitQuantLinear.g_idx :=
           Some {| t_dtype := Int32; t_shape := [Z.of_nat (length (range i))];
                   t_requires_grad := false;
                   t_storage := Elems ((fun c => c `div` gs') <$> range i) |};
         Autograd4bitQuantLinear.bias := empty_tensor [o] Float32;
         Autograd4bitQuantLinear.qweight :=
           empty_tensor [i `div` 256 * (Z.of_N bits * 8); o] Int32 |}.
Proof.
  intros Hq gs' n_groups.
  unfold Autograd4bitQuantLinear.__init__, default_dtype in Hq.
  fold (effective_groupsize i gs) in Hq.
  unfold ceil_truediv in Hq. fold gs' in Hq.
  destruct (decide (gs' = 0)) as [Hz|Hnz]; [discriminate|].
  split; [exact Hnz|]. cbn in Hq. fold n_groups in Hq.
  destruct (torch_empty [n_groups; _] Int32) as [qz|] eqn:Hqz; cbn in Hq; [|discriminate].
  destruct (torch_empty [n_groups; o] Float32) as [sc|] eqn:Hsc; cbn in Hq; [|discriminate].
  rewrite (group_indices i gs' Hnz) in Hq. cbn in Hq.
  destruct (torch_tensor_int32 _) as [gi|] eqn:Hgi; cbn in Hq; [|discriminate].
  destruct (torch_empty [o] Float32) as [b|] eqn:Hb; cbn in Hq; [|discriminate].
  destruct (torch_empty [_; o] Int32) as [w|] eqn:Hw; cbn in Hq; [|discriminate].
  apply torch_empty_inv in Hqz, Hsc, Hb, Hw. apply torch_tensor_int32_inv in Hgi.
  rewrite length_fmap in Hgi. subst. injection Hq as <-. reflexivity.
Qed.

#[local] Arguments torch_empty : simpl never.
#[local] Arguments torch_tensor_int32 : simpl never.
#[local] Arguments for_each : simpl never.

Lemma torch_tensor_int32_ok (l : list Z) :
  Forall (fun v => int32_min <= v <= int32_max) l ->
  torch_tensor_int32 l = Ok {| t_dtype := Int32; t_shape := [Z.of_nat (length l)];
                               t_requires_grad := false; t_storage := Elems l |}.
Proof. intros Hl. unfold torch_tensor_int32. by rewrite decide_True. Qed.

Lemma group_indices_fit_int32 (n gs : Z) :
  n <= 2 ^ 31 -> 0 < gs ->
  Forall (fun v => int32_min <= v <= int32_max) ((fun c => c `div` gs) <$> range n).
Proof.
  intros Hn Hgs. apply Forall_fmap, Forall_forall. intros c Hc.
  apply elem_of_range in Hc. cbn. unfold int32_min, int32_max.
  assert (0 <= c `div` gs) by (apply Z.div_pos; lia).
  assert (c `div` gs <= c) by (apply Z.div_le_upper_bound; nia).
  lia.
Qed.

(** Construction succeeds on non-negative feature counts with a usable
    group size, whatever the bit-width. *)
Lemma init_succeeds (i o gs : Z) (is_v1_model : bool) (bits : N) :
  0 <= i <= 2 ^ 31 -> 0 <= o ->
  is_v1_model = true \/ 0 < effective_groupsize i gs ->
  exists q, Autograd4bitQuantLinear.__init__ i o gs is_v1_model bits = Ok q.
Proof.
  intros Hi Ho Hgs.
  assert (Hw : 0 <= i `div` 256 * (Z.of_N bits * 8)).
  { apply Z.mul_nonneg_nonneg; [apply Z.div_pos; lia | lia]. }
  assert (Hz : 0 <= o `div` 256 * (Z.of_N bits * 8)).
  { apply Z.mul_nonneg_nonneg; [apply Z.div_pos; lia | lia]. }
  assert (Ebias : torch_empty [o] Float32 = Ok (empty_tensor [o] Float32))
    by (apply torch_empty_ok; repeat constructor; lia).
  assert (Eqw : torch_empty [i `div` 256 * (Z.of_N bits * 8); o] Int32
                = Ok (empty_tensor [i `div` 256 * (Z.of_N bits * 8); o] Int32))
    by (apply torch_empty_ok; repeat constructor; lia).
  unfold Autograd4bitQuantLinear.__init__, default_dtype.
  fold (effective_groupsize i gs).
  destruct is_v1_model.
  - assert (E1 : torch_empty [o; 1] Float32 = Ok (empty_tensor [o; 1] Float32))
      by (apply torch_empty_ok; repeat constructor; lia).
    rewrite E1, Ebias, Eqw. eexists. reflexivity.
  - destruct Hgs as [?|Hgs]; [discriminate|].
    set (gs' := effective_groupsize i gs) in *.
    assert (Hg : 0 <= - ((- i) `div` gs')).
    { pose proof (Z.mod_pos_bound (- i) gs' Hgs).
      pose proof (Z.div_mod (- i) gs' ltac:(lia)). nia. }
    assert (Eqz : torch_empty [- ((- i) `div` gs'); o `div` 256 * (Z.of_N bits * 8)] Int32
                  = Ok (empty_tensor [- ((- i) `div` gs');
                                      o `div` 256 * (Z.of_N bits * 8)] Int32))
      by (apply torch_empty_ok; repeat constructor; lia).
    assert (Esc : torch_empty [- ((- i) `div` gs'); o] Float32
                  = Ok (empty_tensor [- ((- i) `div` gs'); o] Float32))
      by (apply torch_empty_ok; repeat constructor; lia).
    unfold ceil_truediv. rewrite decide_False by lia.
    rewrite (group_indices i gs') by lia.
    rewrite Ebias, Eqw. cbn. rewrite Eqz. cbn. rewrite Esc. cbn.
    rewrite torch_tensor_int32_ok by (apply group_indices_fit_int32; lia).
    eexists. reflexivity.
Qed.

Lemma bind_raise_inv {A B} (r : result A) (f : A -> result B) (e : exn) :
  r ≫= f = Raise e -> r = Raise e \/ exists a, r = Ok a /\ f a = Raise e.
Proof. destruct r as [a|e']; cbn; intros Hr; [right; eauto | left; congruence]. Qed.




(** [ceil_truediv] is the ceiling of the quotient. *)
Lemma ceil_truediv_is_ceiling (a b : Z) :
  0 < b ->
  exists n, ceil_truediv a b = Ok n /\ b * (n - 1) < a <= b * n.
Proof.
  intros Hb. exists (- ((- a) `div` b)). unfold ceil_truediv.
  rewrite decide_False by lia. split; [reflexivity|].
  pose proof (Z.mod_pos_bound (- a) b Hb).
  pose proof (Z.div_mod (- a) b ltac:(lia)). nia.
Qed.





(** ** Module-graph substitution *)

Lemma for_each_nil {A B} (f : A -> result B) : for_each f [] = Ok [].
Proof. reflexivity. Qed.

Lemma for_each_cons {A B} (f : A -> result B) (x : A) (l : list A) :
  for_each f (x :: l) = y ← f x; ys ← for_each f l; Ok (y :: ys).
Proof. reflexivity. Qed.

Lemma for_each_ok_inv {A B} (f : A -> result B) (l : list A) (l' : list B) :
  for_each f l = Ok l' -> Forall2 (fun x y => f x = Ok y) l l'.
Proof.
  revert l'. induction l as [|x l IH]; intros l' Hl.
  - injection Hl as <-. constructor.
  - rewrite for_each_cons in Hl.
    destruct (f x) as [y|] eqn:Hy; cbn in Hl; [|discriminate].
    destruct (for_each f l) as [ys|]; cbn in Hl; [|discriminate].
    injection Hl as <-. constructor; [exact Hy | apply IH; reflexivity].
Qed.

Lemma for_each_ok {A B} (f : A -> result B) (l : list A) (l' : list B) :
  Forall2 (fun x y => f x = Ok y) l l' -> for_each f l = Ok l'.
Proof.
  induction 1 as [|x y l l' Hy _ IH]; [reflexivity|].
  rewrite for_each_cons, Hy, IH. reflexivity.
Qed.

Lemma for_each_raise_inv {A B} (f : A -> result B) (l : list A) (e : exn) :
  for_each f l = Raise e -> exists x, x ∈ l /\ f x = Raise e.
Proof.
  induction l as [|x l IH]; [discriminate|].
  rewrite for_each_cons. intros Hl.
  destruct (f x) as [y|e'] eqn:Hy; cbn in Hl.
  - destruct (for_each f l) as [ys|e'] eqn:Hys; cbn in Hl; [discriminate|].
    injection Hl as ->. destruct (IH eq_refl) as (x' & Hin & Hx').
    exists x'. split; [by apply list_elem_of_further | exact Hx'].
  - injection Hl as ->. exists x. split; [apply list_elem_of_here | exact Hy].
Qed.


Section SubstitutionFacts.
Variable names : gset string.
Variables (groupsize : Z) (is_v1_model : bool) (bits : N).

Abbreviation make_quant := (make_quant_for_4bit_autograd names groupsize is_v1_model bits).
Abbreviation visit := (visit_attr names groupsize is_v1_model bits).

Lemma make_quant_unfold (fuel : nat) (f : option (Z * Z))
    (tensors : list (string * tensor)) (children : list (string * module))
    (name : string) :
  make_quant (S fuel) (Module f tensors children) name =
    _ ← for_each (visit_tensor names name) tensors;
    children ← for_each (visit name) children;
    children ← for_each (descend (make_quant fuel) name) children;
    Ok (Module f tensors children).
Proof. reflexivity. Qed.

(** Recursion stops at a quantized module: it is returned as it is. *)
Lemma make_quant_at_quant (fuel : nat) (q : Autograd4bitQuantLinear.t) (name : string) :
  make_quant (S fuel) (Quant q) name = Ok (Quant q).
Proof. reflexivity. Qed.








End SubstitutionFacts.

Lemma Forall2_elem_of_r {A B} (P : A -> B -> Prop) (l : list A) (l' : list B) (y : B) :
  Forall2 P l l' -> y ∈ l' -> exists x, x ∈ l /\ P x y.
Proof.
  induction 1 as [|x y' l l' Hxy _ IH]; intros Hy.
  - by apply elem_of_nil in Hy.
  - apply elem_of_cons in Hy as [->|Hy].
    + exists x. split; [apply list_elem_of_here | exact Hxy].
    + destruct (IH Hy) as (x' & Hin & Hx'). exists x'.
      split; [by apply list_elem_of_further | exact Hx'].
Qed.

Lemma child_depth (children : list (string * module)) (x : string * module) :
  x ∈ children ->
  (depth x.2 <= foldr (fun e acc => Nat.max (depth e.2) acc) 0 children)%nat.
Proof.
  induction children as [|c children IH]; intros Hx.
  - by apply elem_of_nil in Hx.
  - apply elem_of_cons in Hx as [->|Hx]; cbn; [lia|].
    specialize (IH Hx). lia.
Qed.








(** ** Precision conversion *)

Section PrecisionFacts.
Context `{External}.

Lemma tensor_to_dtype (d : dtype) (t : tensor) : t_dtype (tensor_to d t) = d.
Proof. unfold tensor_to. destruct (decide _) as [Hd|Hd]; [exact Hd|reflexivity]. Qed.

Lemma tensor_to_same (d : dtype) (t : tensor) : t_dtype t = d -> tensor_to d t = t.
Proof. intros Hd. unfold tensor_to. by rewrite decide_True. Qed.

Lemma tensor_to_cast_floating (d : dtype) (t : tensor) :
  tensor_to d (cast_floating d t) = tensor_to d t.
Proof.
  unfold cast_floating. destruct (is_floating_point t); [|reflexivity].
  apply tensor_to_same, tensor_to_dtype.
Qed.

Lemma cast_floating_integer (d : dtype) (t : tensor) :
  t_dtype t = Int32 -> cast_floating d t = t.
Proof. intros Hd. unfold cast_floating, is_floating_point. by rewrite Hd. Qed.

Abbreviation convert := convert_to.

Lemma model_to_half_convert (model : module) :
  model_to_half model = convert Float16 model.
Proof. reflexivity. Qed.

Lemma model_to_float_convert (model : module) :
  model_to_float model = convert Float32 model.
Proof. reflexivity. Qed.

Lemma lookup_child_fmap (g : module -> module) (name : string)
    (children : list (string * module)) :
  lookup_child name ((fun e => (e.1, g e.2)) <$> children)
    = g <$> lookup_child name children.
Proof.
  unfold lookup_child. induction children as [|[n c] children IH]; [reflexivity|].
  cbn. destruct (bool_decide (n = name)); [reflexivity | exact IH].
Qed.

Lemma lookup_child_for_each (F : module -> result module) (name : string)
    (children children' : list (string * module)) (c : module) :
  for_each (fun e => c ← F e.2; Ok (e.1, c)) children = Ok children' ->
  lookup_child name children = Some c ->
  exists c', lookup_child name children' = Some c' /\ F c = Ok c'.
Proof.
  unfold lookup_child. revert children'.
  induction children as [|[n c0] children IH]; intros children' Hf Hl; [discriminate|].
  rewrite for_each_cons in Hf. cbn in Hf.
  destruct (F c0) as [c0'|] eqn:Hc0; cbn in Hf; [|discriminate].
  destruct (for_each _ children) as [cs'|] eqn:Hcs; cbn in Hf; [|discriminate].
  injection Hf as <-. cbn in Hl |- *.
  destruct (bool_decide (n = name)).
  - injection Hl as <-. exists c0'. auto.
  - apply (IH cs' eq_refl Hl).
Qed.

Lemma convert_submodule (d : dtype) (path : list string) (model model' sub : module) :
  convert d model = Ok model' ->
  submodule model path = Some sub ->
  exists sub', submodule model' path = Some sub' /\ convert d sub = Ok sub'.
Proof.
  revert model model'. induction path as [|name path IH]; intros model model' Hc Hs.
  - injection Hs as <-. exists model'. auto.
  - destruct model as [q | f tensors children]; [discriminate|].
    cbn in Hs. destruct (lookup_child name children) as [c|] eqn:Hl; [|discriminate].
    unfold convert in Hc. cbn in Hc.
    destruct (for_each _ _) as [cs'|] eqn:Hcs; cbn in Hc; [|discriminate].
    injection Hc as <-.
    destruct (lookup_child_for_each _ name _ _ (module_apply (cast_floating d) c) Hcs)
      as (c' & Hl' & Hc').
    { rewrite lookup_child_fmap, Hl. reflexivity. }
    destruct (IH c c' Hc' Hs) as (sub' & Hs' & Hsub).
    exists sub'. split; [|exact Hsub]. cbn. rewrite Hl'. exact Hs'.
Qed.

Lemma cast_floating_packed (d : dtype) (q : Autograd4bitQuantLinear.t) :
  packed_integer q ->
  cast_floating d (Autograd4bitQuantLinear.qweight q)
    = Autograd4bitQuantLinear.qweight q /\
  cast_floating d <$> Autograd4bitQuantLinear.qzeros q
    = Autograd4bitQuantLinear.qzeros q /\
  cast_floating d <$> Autograd4bitQuantLinear.g_idx q
    = Autograd4bitQuantLinear.g_idx q.
Proof.
  intros (Hw & Hqz & Hgi). split; [by apply cast_floating_integer|]. split.
  - destruct (Autograd4bitQuantLinear.qzeros q) as [t|]; [|reflexivity].
    cbn. f_equal. by apply cast_floating_integer, Hqz.
  - destruct (Autograd4bitQuantLinear.g_idx q) as [t|]; [|reflexivity].
    cbn. f_equal. by apply cast_floating_integer, Hgi.
Qed.

(** The conversion at a quantized module. *)
Lemma convert_quant (d : dtype) (q : Autograd4bitQuantLinear.t) (m' : module) :
  convert d (Quant q) = Ok m' ->
  exists q',
    m' = Quant q' /\
    Autograd4bitQuantLinear.scales q' = tensor_to d (Autograd4bitQuantLinear.scales q) /\
    Autograd4bitQuantLinear.bias q' = tensor_to d (Autograd4bitQuantLinear.bias q) /\
    (Autograd4bitQuantLinear.is_v1_model q = true ->
     exists z, Autograd4bitQuantLinear.zeros q = Some z /\
               Autograd4bitQuantLinear.zeros q' = Some (tensor_to d z)) /\
    Autograd4bitQuantLinear.qweight q'
      = cast_floating d (Autograd4bitQuantLinear.qweight q) /\
    Autograd4bitQuantLinear.qzeros q'
      = cast_floating d <$> Autograd4bitQuantLinear.qzeros q /\
    Autograd4bitQuantLinear.g_idx q'
      = cast_floating d <$> Autograd4bitQuantLinear.g_idx q.
Proof.
  unfold convert_to. cbn. unfold recast_buffers. cbn. intros Hc.
  destruct (Autograd4bitQuantLinear.is_v1_model q) eqn:Hv1.
  - destruct (Autograd4bitQuantLinear.zeros q) as [z|] eqn:Hz; cbn in Hc; [|discriminate].
    injection Hc as <-. eexists. split; [reflexivity|]. cbn.
    rewrite !tensor_to_cast_floating.
    split; [reflexivity|]. split; [reflexivity|].
    split; [intros _; by exists z|]. auto.
  - cbn in Hc. injection Hc as <-. eexists. split; [reflexivity|]. cbn.
    rewrite !tensor_to_cast_floating.
    split; [reflexivity|]. split; [reflexivity|].
    split; [discriminate|]. auto.
Qed.

(** The conversion at any other module: its own tensors are cast when
    they are floating-point. *)
Lemma convert_plain (d : dtype) (f : option (Z * Z))
    (tensors : list (string * tensor)) (children : list (string * module))
    (m' : module) :
  convert d (Module f tensors children) = Ok m' ->
  exists children',
    m' = Module f ((fun e => (e.1, cast_floating d e.2)) <$> tensors) children'.
Proof.
  unfold convert. cbn. intros Hc.
  destruct (for_each _ _) as [cs'|]; cbn in Hc; [|discriminate].
  injection Hc as <-. eauto.
Qed.

End PrecisionFacts.

Lemma for_each_all_ok {A B} (f : A -> result B) (l : list A) :
  (forall x, x ∈ l -> exists y, f x = Ok y) -> exists l', for_each f l = Ok l'.
Proof.
  induction l as [|x l IH]; intros Hall; [by exists []|].
  destruct (Hall x (list_elem_of_here _ _)) as [y Hy].
  destruct IH as [ys Hys]; [intros x' Hx'; by apply Hall, list_elem_of_further|].
  exists (y :: ys). rewrite for_each_cons, Hy, Hys. reflexivity.
Qed.

Lemma zeros_present_child (children : list (string * module)) (x : string * module) :
  foldr (fun e acc => zeros_present e.2 /\ acc) True children ->
  x ∈ children -> zeros_present x.2.
Proof.
  induction children as [|c children IH]; intros Hz Hx.
  - by apply elem_of_nil in Hx.
  - destruct Hz as [Hc Hz]. apply elem_of_cons in Hx as [->|Hx]; auto.
Qed.

(** A conversion goes through on every tree whose v1-layout modules have
    their [zeros]. *)
Lemma convert_total `{External} (d : dtype) (model : module) :
  zeros_present model -> exists model', convert_to d model = Ok model'.
Proof.
  assert (Hn : forall n m, (depth m <= n)%nat -> zeros_present m ->
                 exists m', convert_to d m = Ok m');
    [|apply (Hn (depth model)); lia].
  induction n as [|n IH]; intros m Hd Hz.
  - destruct m as [q | f tensors children]; [|cbn in Hd; lia].
    unfold convert_to. cbn. unfold recast_buffers. cbn in Hz.
    destruct (Autograd4bitQuantLinear.is_v1_model q); cbn; [|eauto].
    destruct (Hz eq_refl) as [z ->]. cbn. eauto.
  - destruct m as [q | f tensors children].
    + apply (IH (Quant q)); [cbn; lia | exact Hz].
    + unfold convert_to. cbn. cbn in Hd, Hz.
      destruct (for_each_all_ok
                  (fun e => c ← for_quant_modules (recast_buffers (tensor_to d)) e.2;
                            Ok (e.1, c))
                  ((fun e => (e.1, module_apply (cast_floating d) e.2)) <$> children))
        as [cs' Hcs'].
      { intros x Hx. apply list_elem_of_fmap in Hx as (e & -> & He). cbn.
        pose proof (child_depth _ _ He) as Hde.
        destruct (IH e.2 ltac:(lia) (zeros_present_child _ _ Hz He)) as [c' Hc'].
        unfold convert_to in Hc'. rewrite Hc'. cbn. eauto. }
      rewrite Hcs'. cbn. eauto.
Qed.

Lemma convert_converted `{External} (d : dtype) (model model' : module) :
  convert_to d model = Ok model' -> converted_to d model model'.
Proof.
  intros Hc. split.
  - intros path f tensors children Hs.
    destruct (convert_submodule d path model model' _ Hc Hs) as (sub' & Hs' & Hsub).
    apply convert_plain in Hsub as [children' ->]. eauto.
  - intros path q Hs.
    destruct (convert_submodule d path model model' _ Hc Hs) as (sub' & Hs' & Hsub).
    apply convert_quant in Hsub as (q' & -> & Hsc & Hb & Hz & Hw & Hqz & Hgi).
    exists q'. split; [exact Hs'|].
    split; [exact Hsc|]. split; [rewrite Hsc; apply tensor_to_dtype|].
    split; [exact Hb|]. split; [rewrite Hb; apply tensor_to_dtype|].
    split.
    { intros Hv1. destruct (Hz Hv1) as (z & Hz1 & Hz2).
      exists z. split; [exact Hz1|]. split; [exact Hz2 | apply tensor_to_dtype]. }
    split; [exact Hw|]. split; [exact Hqz|]. split; [exact Hgi|].
    intros Hp. rewrite Hw, Hqz, Hgi. apply cast_floating_packed, Hp.
Qed.

(** A newly constructed module has integer packed buffers. *)
Lemma init_packed_integer (i o gs : Z) (is_v1_model : bool) (bits : N)
    (q : Autograd4bitQuantLinear.t) :
  Autograd4bitQuantLinear.__init__ i o gs is_v1_model bits = Ok q -> packed_integer q.
Proof.
  intros Hq.
  destruct is_v1_model;
    [apply init_v1_inv in Hq | apply init_grouped_inv in Hq as [_ Hq]];
    subst q; repeat split; cbn; intros t [= <-]; reflexivity.
Qed.

(** C7: [model_to_half] and [model_to_float] cast every floating-point
    parameter and buffer of the ordinary modules, convert [scales],
    [bias] and (v1 layout) [zeros] of every quantized module to the
    target precision, and leave its packed integer buffers [qweight],
    [qzeros] and [g_idx] as they were; they go through whenever the
    v1-layout modules have their [zeros]. *)
Theorem precision_conversion_frame `{External} (model : module) :
  (forall model', model_to_half model = Ok model' -> converted_to Float16 model model') /\
  (forall model', model_to_float model = Ok model' -> converted_to Float32 model model') /\
  (zeros_present model ->
   (exists model', model_to_half model = Ok model') /\
   (exists model', model_to_float model = Ok model')).
Proof.
  split; [|split].
  - intros model' Hm. apply convert_converted. exact Hm.
  - intros model' Hm. apply convert_converted. exact Hm.
  - intros Hz. split; [apply (convert_total Float16) | apply (convert_total Float32)];
      exact Hz.
Qed.

Lemma precision_conversion_frame_witness :
  zeros_present sample_model /\
  packed_integer sample_quant /\
  exists model' q',
    @model_to_half sample_external sample_model = Ok model' /\
    submodule model' ["fc"] = Some (Quant q') /\
    t_dtype (Autograd4bitQuantLinear.scales q') = Float16 /\
    t_dtype (Autograd4bitQuantLinear.bias q') = Float16 /\
    Autograd4bitQuantLinear.qweight q' = sample_qweight /\
    Autograd4bitQuantLinear.qzeros q' = Some sample_qzeros /\
    Autograd4bitQuantLinear.g_idx q' = Some sample_g_idx.
Proof.
  assert (Hz : zeros_present sample_model).
  { cbn. split; [discriminate|]. split; [|exact I]. split; exact I. }
  assert (Hp : packed_integer sample_quant).
  { repeat split; cbn; intros t [= <-]; reflexivity. }
  split; [exact Hz|]. split; [exact Hp|].
  destruct (@precision_conversion_frame sample_external sample_model)
    as (Hhalf & _ & Htotal).
  destruct (Htotal Hz) as [[model' Hm] _].
  destruct (Hhalf model' Hm) as [_ Hq].
  destruct (Hq ["fc"] sample_quant eq_refl)
    as (q' & Hs & _ & Hsd & _ & Hbd & _ & _ & _ & _ & Hpk).
  destruct (Hpk Hp) as (Hw & Hqz & Hgi).
  exists model', q'. repeat split; assumption.
Defined.

(** * Further properties of the code *)

(** ** The training configuration, continued *)



Lemma int_of_float_floor (v : Q) :
  (1 < v)%Q ->
  1 <= Finetune4bConfig.int_of_float v /\
  (inject_Z (Finetune4bConfig.int_of_float v) <= v)%Q /\
  (v < inject_Z (Finetune4bConfig.int_of_float v + 1))%Q.
Proof.
  destruct v as [a b]. unfold Qlt, Qle, Finetune4bConfig.int_of_float. cbn.
  intros Hv.
  assert (Hb : 0 < Z.pos b) by lia.
  rewrite Z.quot_div_nonneg by lia.
  pose proof (Z.mod_pos_bound a (Z.pos b) Hb) as Hm.
  pose proof (Z.div_mod a (Z.pos b) ltac:(lia)) as Hd.
  assert (1 <= a `div` Z.pos b) by (apply Z.div_le_lower_bound; lia).
  split; [assumption|]. split; nia.
Qed.

(** X2: a [val_set_size] above 1.0 is stored as an integer, the largest
    one that does not exceed it (an absolute number of samples, at least
    1); any other value is stored as the float it is (a fraction). *)
Theorem val_set_size_is_count_or_fraction
    (dataset ds_type lora_out_dir lora_apply_dir llama_q4_config_dir
     llama_q4_model : string)
    (mbatch_size batch_size epochs : Z) (lr : Q)
    (cutoff_len lora_r lora_alpha : Z) (lora_dropout val_set_size : Q)
    (warmup_steps save_steps save_total_limit logging_steps : Z)
    (checkpoint skip : bool) (cfg : Finetune4bConfig.t) :
  Finetune4bConfig.__init__ dataset ds_type lora_out_dir lora_apply_dir
    llama_q4_config_dir llama_q4_model mbatch_size batch_size epochs lr
    cutoff_len lora_r lora_alpha lora_dropout val_set_size warmup_steps
    save_steps save_total_limit logging_steps checkpoint skip = Ok cfg ->
  ((1 < val_set_size)%Q ->
   exists n, Finetune4bConfig.val_set_size cfg = Finetune4bConfig.PyInt n /\
             1 <= n /\
             (inject_Z n <= val_set_size)%Q /\
             (val_set_size < inject_Z (n + 1))%Q) /\
  ((val_set_size <= 1)%Q ->
   Finetune4bConfig.val_set_size cfg = Finetune4bConfig.PyFloat val_set_size).
Proof.
  unfold Finetune4bConfig.__init__. intros Hc.
  destruct (floordiv batch_size mbatch_size) as [steps|]; cbn in Hc; [|discriminate].
  injection Hc as <-. cbn.
  destruct (Qlt_le_dec 1 val_set_size) as [Hgt|Hle]; split.
  - intros _. eexists. split; [reflexivity|]. by apply int_of_float_floor.
  - intros Hle. exfalso. apply (Qlt_not_le _ _ Hgt Hle).
  - intros Hgt. exfalso. apply (Qlt_not_le _ _ Hgt Hle).
  - intros _. reflexivity.
Qed.

Lemma val_set_size_is_count_or_fraction_witness :
  exists cfg,
    Finetune4bConfig.__init__ "alpaca.json" "alpaca" "out" "" "cfg" "model.pt"
      4 128 3 (2 # 10000) 256 8 16 (5 # 100) (4001 # 2) 50 50 3 10 false false
      = Ok cfg /\
    Finetune4bConfig.val_set_size cfg = Finetune4bConfig.PyInt 2000.
Proof.
  eexists. split; [reflexivity|].
  destruct (val_set_size_is_count_or_fraction
              "alpaca.json" "alpaca" "out" "" "cfg" "model.pt"
              4 128 3 (2 # 10000) 256 8 16 (5 # 100) (4001 # 2) 50 50 3 10
              false false _ eq_refl) as [Hint _].
  destruct (Hint eq_refl) as (n & Hn & _). rewrite Hn. cbn in Hn.
  injection Hn as <-. reflexivity.
Defined.

(** ** Backend state *)

Lemma operator_matches_backend_load (c t : bool) :
  operator_matches_backend (module_init c t).
Proof.
  destruct c, t; unfold operator_matches_backend; vm_compute; auto.
Qed.

Lemma operator_matches_backend_switch (g g' : Globals) (b : string) :
  switch_backend_to g b = Ok g' -> operator_matches_backend g'.
Proof.
  intros Hs. apply switch_backend_to_inv in Hs as (Hname & Hav & ->).
  unfold operator_matches_backend. cbn. auto.
Qed.

(** X3: when the module is loaded the compiled CUDA backend is preferred
    to Triton; and then and after every backend switch, failed or not,
    the operator bound to [AutogradMatmul4bit] is the one of the backend
    [backend] names, whose native support was found at load time, or
    the placeholder when [backend] is [None] and nothing was found. *)
Theorem backend_and_operator_agree (mm4b_importable tu_importable : bool)
    (calls : list string) :
  backend (module_init mm4b_importable tu_importable)
    = (if mm4b_importable then Some "cuda"
       else if tu_importable then Some "triton" else None) /\
  operator_matches_backend
    (run_switches (module_init mm4b_importable tu_importable) calls).
Proof.
  split; [destruct mm4b_importable, tu_importable; reflexivity|].
  generalize (operator_matches_backend_load mm4b_importable tu_importable).
  generalize (module_init mm4b_importable tu_importable).
  induction calls as [|b calls IH]; intros g Hg; [exact Hg|].
  rewrite run_switches_cons. apply IH.
  destruct (switch_backend_to g b) as [g'|] eqn:Hs; [|exact Hg].
  eapply operator_matches_backend_switch, Hs.
Qed.

(** X4: a successful switch overwrites whatever was selected before:
    switching again to the same backend changes nothing, and any further
    switch behaves as if the first had not been made. *)
Theorem last_switch_wins (g g1 : Globals) (b : string) :
  switch_backend_to g b = Ok g1 ->
  switch_backend_to g1 b = Ok g1 /\
  (forall b', switch_backend_to g1 b' = switch_backend_to g b') /\
  (forall calls b', b' ∈ ["cuda"; "triton"] -> backend_available g b' = true ->
     backend (run_switches g (calls ++ [b'])) = Some b').
Proof.
  intros Hs. pose proof Hs as Hs'.
  apply switch_backend_to_inv in Hs' as (Hname & Hav & ->).
  assert (Hsame : forall b',
            switch_backend_to (rebind g (operator_of_backend b) b) b'
              = switch_backend_to g b').
  { intros b'. unfold switch_backend_to, is_gptq_backend_available,
      is_triton_backend_available. cbn.
    repeat (destruct (decide _); try reflexivity);
      destruct (bool_decide _); reflexivity. }
  split; [rewrite Hsame; exact Hs|]. split; [exact Hsame|].
  intros calls b' Hin Hav'. unfold run_switches. rewrite foldl_app. cbn.
  fold (run_switches g calls).
  assert (Hb : backend_available (run_switches g calls) b' = true).
  { unfold backend_available, is_gptq_backend_available, is_triton_backend_available in *.
    rewrite (proj1 (run_switches_bound g calls)). exact Hav'. }
  apply backend_name_cases in Hin.
  unfold switch_backend_to, backend_available in *.
  destruct (decide (b' = "cuda")) as [->|Hc].
  - rewrite Hb. reflexivity.
  - destruct (decide (b' = "triton")) as [->|Ht]; [|tauto].
    rewrite Hb. reflexivity.
Qed.

Lemma last_switch_wins_witness :
  exists g1,
    switch_backend_to (module_init true true) "triton" = Ok g1 /\
    switch_backend_to g1 "triton" = Ok g1 /\
    backend (run_switches (module_init true true) ["triton"; "rocm"; "cuda"])
      = Some "cuda".
Proof.
  eexists. split; [reflexivity|].
  destruct (last_switch_wins (module_init true true) _ "triton" eq_refl)
    as (Hsame & _ & Hlast).
  split; [exact Hsame|].
  apply (Hlast ["triton"; "rocm"] "cuda");
    [apply list_elem_of_here | reflexivity].
Defined.

(** ** Forward dispatch at the edges *)

Lemma no_backend_stays (calls : list string) :
  run_switches (module_init false false) calls = module_init false false.
Proof.
  induction calls as [|b calls IH]; [reflexivity|].
  rewrite run_switches_cons.
  destruct (switch_backend_to (module_init false false) b) as [g'|] eqn:Hs; [|exact IH].
  apply switch_backend_to_inv in Hs as ([-> | ->] & Hav & _);
    vm_compute in Hav; discriminate.
Qed.

(** X5: when neither native module could be imported, no backend switch
    ever succeeds, and every forward on a 4-bit or 2-bit module raises:
    [NotImplementedError] through the placeholder operator, and
    [ValueError('Backend not supported.')] on the 4-bit path without
    gradient tracking.  No output is ever produced. *)
Theorem no_backend_fails_closed `{External} (calls : list string)
    (self : Autograd4bitQuantLinear.t) (x zp : tensor) :
  let g := run_switches (module_init false false) calls in
  g = module_init false false /\
  (forall b, exists msg, switch_backend_to g b = Raise (ValueError msg)) /\
  (Autograd4bitQuantLinear.bits self = 4%N -> zero_point self = Ok zp ->
   Autograd4bitQuantLinear.forward g true self x = Raise NotImplementedError /\
   Autograd4bitQuantLinear.forward g false self x
     = Raise (ValueError "Backend not supported.")) /\
  (Autograd4bitQuantLinear.bits self = 2%N ->
   Autograd4bitQuantLinear.qzeros self = Some zp ->
   forall grad_enabled,
     Autograd4bitQuantLinear.forward g grad_enabled self x = Raise NotImplementedError).
Proof.
  cbn zeta. rewrite no_backend_stays. split; [reflexivity|]. split.
  { intros b. unfold switch_backend_to.
    destruct (decide (b = "cuda")); [eexists; reflexivity|].
    destruct (decide (b = "triton")); eexists; reflexivity. }
  split.
  - intros Hb Hz. rewrite !(forward_bits4 _ _ _ _ Hb), Hz. split; reflexivity.
  - intros Hb Hz ge. unfold Autograd4bitQuantLinear.forward.
    rewrite Hb, Hz. reflexivity.
Qed.

Lemma no_backend_fails_closed_witness :
  Autograd4bitQuantLinear.bits sample_quant = 4%N /\
  zero_point sample_quant = Ok sample_qzeros /\
  @Autograd4bitQuantLinear.forward sample_external
    (run_switches (module_init false false) ["cuda"; "triton"]) false
    sample_quant sample_x = Raise (ValueError "Backend not supported.").
Proof.
  split; [reflexivity|]. split; [reflexivity|].
  destruct (@no_backend_fails_closed sample_external ["cuda"; "triton"]
              sample_quant sample_x sample_qzeros) as (_ & _ & H4 & _).
  exact (proj2 (H4 eq_refl eq_refl)).
Defined.




(** X7: with the Triton backend active, the forward of a 4-bit module
    without gradient tracking raises [AssertionError] unless the
    zero-point buffer is int32; so it raises on every v1-layout module
    [__init__] builds, whose [zeros] is a float tensor, also after a
    precision conversion.  The CUDA backend makes no such check. *)
Theorem triton_inference_asserts_int32_zero_point `{External} (g : Globals)
    (self : Autograd4bitQuantLinear.t) (x zp : tensor) :
  Autograd4bitQuantLinear.bits self = 4%N ->
  backend g = Some "triton" ->
  zero_point self = Ok zp ->
  (t_dtype zp ≠ Int32 ->
   Autograd4bitQuantLinear.forward g false self x = Raise AssertionError) /\
  (forall i o gs, Autograd4bitQuantLinear.__init__ i o gs true 4 = Ok self ->
     t_dtype zp = Float32) /\
  (forall d, d ≠ Int32 -> t_dtype (tensor_to d zp) ≠ Int32).
Proof.
  intros Hb Hg Hz. split; [|split].
  - intros Hd. rewrite (forward_bits4 _ _ _ _ Hb), Hz. cbn.
    unfold matmul4bit_with_backend. rewrite Hg.
    rewrite decide_False by discriminate. rewrite decide_True by reflexivity.
    rewrite bool_decide_eq_false_2 by exact Hd. reflexivity.
  - intros i o gs Hq. apply init_v1_inv in Hq. subst self.
    cbn in Hz. injection Hz as <-. reflexivity.
  - intros d Hd. by rewrite tensor_to_dtype.
Qed.

Lemma triton_inference_asserts_int32_zero_point_witness :
  Autograd4bitQuantLinear.bits sample_quant_v1 = 4%N /\
  backend (module_init false true) = Some "triton" /\
  zero_point sample_quant_v1 = Ok sample_zeros /\
  t_dtype sample_zeros ≠ Int32 /\
  @Autograd4bitQuantLinear.forward sample_external (module_init false true)
    false sample_quant_v1 sample_x = Raise AssertionError.
Proof.
  assert (Hd : t_dtype sample_zeros ≠ Int32) by discriminate.
  split; [reflexivity|]. split; [reflexivity|]. split; [reflexivity|].
  split; [exact Hd|].
  exact (proj1 (@triton_inference_asserts_int32_zero_point sample_external
                  (module_init false true) sample_quant_v1 sample_x sample_zeros
                  eq_refl eq_refl eq_refl) Hd).
Defined.

(** ** The forward rule of the autograd operators *)

(** X8: a forward saves the weight-side tensors and nothing of the
    activation: two forwards that differ in the activation only leave the
    same context, so the backward of either gives, for every incoming
    gradient, the same result. *)
Theorem forward_context_ignores_activation `{External} (fn : autograd_fn)
    (ctx0 ctx ctx' : Ctx) (x x' qweight scales zeros : tensor)
    (g_idx : option tensor) (bits : N) (maxq : Z) (out out' : tensor) :
  forward_of fn ctx0 x qweight scales zeros g_idx bits maxq = Ok (ctx, out) ->
  forward_of fn ctx0 x' qweight scales zeros g_idx bits maxq = Ok (ctx', out') ->
  ctx = ctx' /\
  saved_tensors ctx = Some (qweight, scales, zeros, g_idx) /\
  (forall grad_output,
     backward_of fn ctx grad_output = backward_of fn ctx' grad_output).
Proof.
  intros Hf Hf'.
  assert (Hctx : ctx = ctx').
  { destruct fn; cbn in Hf, Hf';
      unfold AutogradMatmul4bitNotImplemented_forward,
        AutogradMatmul4bitCuda_forward, AutogradMatmul2bitCuda_forward,
        AutogradMatmul4bitTriton_forward in Hf, Hf'.
    - discriminate.
    - destruct g_idx.
      + destruct (_matmul4bit_v2_recons x _ _ _ _ _); [|discriminate].
        destruct (_matmul4bit_v2_recons x' _ _ _ _ _); [|discriminate].
        cbn in Hf, Hf'. congruence.
      + destruct (_matmul4bit_v1_recons x _ _ _ _); [|discriminate].
        destruct (_matmul4bit_v1_recons x' _ _ _ _); [|discriminate].
        cbn in Hf, Hf'. congruence.
    - destruct (_matmul2bit_v2_recons x _ _ _ _ _); [|discriminate].
      destruct (_matmul2bit_v2_recons x' _ _ _ _ _); [|discriminate].
      cbn in Hf, Hf'. congruence.
    - destruct (triton_matmul x _ _ _ _ _ _); [|discriminate].
      destruct (triton_matmul x' _ _ _ _ _ _); [|discriminate].
      cbn in Hf, Hf'. congruence. }
  split; [exact Hctx|].
  split; [apply (forward_saves_weight_side _ _ _ _ _ _ _ _ _ _ _ Hf)|].
  intros grad_output. rewrite Hctx. reflexivity.
Qed.

Lemma forward_context_ignores_activation_witness :
  exists ctx out out',
    @forward_of sample_external AutogradMatmul4bitCuda (new_ctx true)
      sample_x sample_qweight sample_scales sample_zeros None 4%N 15
      = Ok (ctx, out) /\
    @forward_of sample_external AutogradMatmul4bitCuda (new_ctx true)
      sample_grad sample_qweight sample_scales sample_zeros None 4%N 15
      = Ok (ctx, out') /\
    saved_tensors ctx = Some (sample_qweight, sample_scales, sample_zeros, None).
Proof.
  eexists _, _, _. split; [reflexivity|]. split; [reflexivity|].
  exact (proj1 (proj2 (@forward_context_ignores_activation sample_external
                         AutogradMatmul4bitCuda (new_ctx true) _ _
                         sample_x sample_grad sample_qweight sample_scales
                         sample_zeros None 4%N 15 _ _ eq_refl eq_refl))).
Defined.

(** ** Construction of the quantized linear module, continued *)

Lemma init_qweight_shape (i o gs : Z) (is_v1_model : bool) (bits : N)
    (q : Autograd4bitQuantLinear.t) :
  Autograd4bitQuantLinear.__init__ i o gs is_v1_model bits = Ok q ->
  Autograd4bitQuantLinear.qweight q
    = empty_tensor [i `div` 256 * (Z.of_N bits * 8); o] Int32 /\
  Autograd4bitQuantLinear.bias q = empty_tensor [o] Float32 /\
  Autograd4bitQuantLinear.maxq q = 2 ^ Z.of_N bits - 1 /\
  Autograd4bitQuantLinear.disable_bias q = false.
Proof.
  intros Hq.
  destruct is_v1_model;
    [apply init_v1_inv in Hq | apply init_grouped_inv in Hq as [_ Hq]];
    subst q; repeat split.
Qed.

Lemma bind_ok_inv {A B} (r : result A) (f : A -> result B) (b : B) :
  r ≫= f = Ok b -> exists a, r = Ok a /\ f a = Ok b.
Proof. destruct r as [a|e]; cbn; intros Hr; [eauto | discriminate]. Qed.

Lemma torch_empty_dims (shape : list Z) (d : dtype) (t : tensor) :
  torch_empty shape d = Ok t -> Forall (fun n => 0 <= n) shape.
Proof. unfold torch_empty. destruct (decide _) as [Hf|]; [auto|discriminate]. Qed.

(** The dimensions of the two buffers every layout allocates are not
    negative. *)
Lemma init_dims (i o gs : Z) (is_v1_model : bool) (bits : N)
    (q : Autograd4bitQuantLinear.t) :
  Autograd4bitQuantLinear.__init__ i o gs is_v1_model bits = Ok q ->
  0 <= o /\ 0 <= i `div` 256 * (Z.of_N bits * 8).
Proof.
  unfold Autograd4bitQuantLinear.__init__. intros Hq.
  apply bind_ok_inv in Hq as ([[[z qz] sc] gi] & _ & Hq).
  apply bind_ok_inv in Hq as (b & Hb & Hq).
  apply bind_ok_inv in Hq as (w & Hw & _).
  apply torch_empty_dims in Hb, Hw.
  apply Forall_cons in Hb as [Hb _]. apply Forall_cons in Hw as [Hw _]. auto.
Qed.

(** X9: the packed weight buffer has [in_features // 256 * bits * 8] rows
    of 32-bit words, which hold [bits] bits for each of the first
    [in_features - in_features mod 256] input channels: all of them
    exactly when [in_features] is a multiple of 256 (or [bits] is 0), and
    otherwise the last [in_features mod 256] channels have no room. *)
Theorem qweight_rows_cover_whole_blocks (i o gs : Z) (is_v1_model : bool)
    (bits : N) (q : Autograd4bitQuantLinear.t) :
  Autograd4bitQuantLinear.__init__ i o gs is_v1_model bits = Ok q ->
  exists rows,
    t_shape (Autograd4bitQuantLinear.qweight q) = [rows; o] /\
    t_dtype (Autograd4bitQuantLinear.qweight q) = Int32 /\
    0 <= rows /\
    rows * 32 = (i - i `mod` 256) * Z.of_N bits /\
    (rows * 32 = i * Z.of_N bits <-> i `mod` 256 = 0 \/ bits = 0%N).
Proof.
  intros Hq. pose proof Hq as Hq'.
  apply init_qweight_shape in Hq' as (Hw & _).
  exists (i `div` 256 * (Z.of_N bits * 8)). rewrite Hw. cbn.
  split; [reflexivity|]. split; [reflexivity|].
  pose proof (Z.div_mod i 256 ltac:(lia)) as Hd.
  pose proof (Z.mod_pos_bound i 256 ltac:(lia)) as Hm.
  assert (Hok : 0 <= i `div` 256 * (Z.of_N bits * 8))
    by apply (init_dims _ _ _ _ _ _ Hq).
  split; [exact Hok|]. split; [lia|].
  split.
  - intros He. destruct (decide (i `mod` 256 = 0)); [by left|]. right. nia.
  - intros [Hz | ->]; [nia | lia].
Qed.

Lemma qweight_rows_cover_whole_blocks_witness :
  exists q rows,
    Autograd4bitQuantLinear.__init__ 4096 11008 128 false 4 = Ok q /\
    t_shape (Autograd4bitQuantLinear.qweight q) = [rows; 11008] /\
    rows = 512.
Proof.
  destruct (init_succeeds 4096 11008 128 false 4) as [q Hq];
    [lia | lia | right; reflexivity|].
  destruct (qweight_rows_cover_whole_blocks _ _ _ _ _ _ Hq)
    as (rows & Hs & _ & _ & Hr & _).
  exists q, rows. split; [exact Hq|]. split; [exact Hs|].
  change ((4096 - 4096 `mod` 256) * Z.of_N 4) with 16384 in Hr. lia.
Defined.



Lemma group_index_iff (gs g c : Z) : 0 < gs -> c `div` gs = g <-> in_group gs g c.
Proof.
  intros Hgs. unfold in_group.
  pose proof (Z.mod_pos_bound c gs Hgs). pose proof (Z.div_mod c gs ltac:(lia)).
  split; [intros <-; lia|]. intros Hc.
  symmetry. apply (Z.div_unique c gs g (c - gs * g)); lia.
Qed.

(** X11: with a positive group size the channels are cut into
    consecutive runs of [groupsize]: the entry of channel [c] is [g]
    exactly when [groupsize * g <= c < groupsize * (g + 1)]; every group
    from 0 to [ceil(in_features / groupsize) - 1] has a channel; and the
    entries never decrease, going up by at most one from a channel to
    the next. *)
Theorem g_idx_runs_of_groupsize (i o gs : Z) (bits : N)
    (q : Autograd4bitQuantLinear.t) :
  Autograd4bitQuantLinear.__init__ i o gs false bits = Ok q ->
  0 < effective_groupsize i gs ->
  let gs' := effective_groupsize i gs in
  exists t l n_groups,
    Autograd4bitQuantLinear.g_idx q = Some t /\ t_storage t = Elems l /\
    ceil_truediv i gs' = Ok n_groups /\
    (forall c g, 0 <= c < i -> l !! Z.to_nat c = Some g <-> in_group gs' g c) /\
    (forall g, 0 <= g < n_groups ->
       exists c, 0 <= c < i /\ l !! Z.to_nat c = Some g) /\
    (forall c, 0 <= c -> c + 1 < i ->
       exists a b, l !! Z.to_nat c = Some a /\ l !! Z.to_nat (c + 1) = Some b /\
                   a <= b <= a + 1).
Proof.
  intros Hq Hgs gs'. apply init_grouped_inv in Hq as [_ ->]. fold gs'. cbn.
  destruct (ceil_truediv_is_ceiling i gs' Hgs) as (n & Hn & Hceil).
  eexists _, _, n. split; [reflexivity|]. cbn. split; [reflexivity|].
  split; [exact Hn|].
  assert (Hl : forall c, 0 <= c < i ->
            ((fun c => c `div` gs') <$> range i) !! Z.to_nat c = Some (c `div` gs')).
  { intros c Hc. rewrite list_lookup_fmap, lookup_range by lia. reflexivity. }
  split; [|split].
  - intros c g Hc. rewrite (Hl c Hc). rewrite <- (group_index_iff gs' g c Hgs).
    split; [intros [= <-]; reflexivity | intros <-; reflexivity].
  - intros g Hg. exists (gs' * g).
    assert (gs' * g <= gs' * (n - 1)) by (apply Z.mul_le_mono_nonneg_l; lia).
    assert (0 <= gs' * g < i) by (split; [apply Z.mul_nonneg_nonneg; lia | lia]).
    split; [assumption|]. rewrite Hl by assumption. f_equal.
    apply group_index_iff; [exact Hgs|]. unfold in_group. lia.
  - intros c Hc0 Hc1. exists (c `div` gs'), ((c + 1) `div` gs').
    rewrite !Hl by lia. split; [reflexivity|]. split; [reflexivity|].
    pose proof (Z.mod_pos_bound c gs' Hgs).
    pose proof (Z.div_mod c gs' ltac:(lia)).
    pose proof (Z.mod_pos_bound (c + 1) gs' Hgs).
    pose proof (Z.div_mod (c + 1) gs' ltac:(lia)).
    split; [apply Z.div_le_mono; lia|]. nia.
Qed.

Lemma g_idx_runs_of_groupsize_witness :
  exists q t l,
    Autograd4bitQuantLinear.__init__ 512 256 128 false 4 = Ok q /\
    0 < effective_groupsize 512 128 /\
    Autograd4bitQuantLinear.g_idx q = Some t /\ t_storage t = Elems l /\
    l !! 127%nat = Some 0 /\ l !! 128%nat = Some 1.
Proof.
  destruct (init_succeeds 512 256 128 false 4) as [q Hq];
    [lia | lia | right; reflexivity|].
  destruct (g_idx_runs_of_groupsize 512 256 128 4 q Hq eq_refl)
    as (t & l & n & Ht & Hl & _ & Hrun & _).
  exists q, t, l. split; [exact Hq|]. split; [reflexivity|].
  split; [exact Ht|]. split; [exact Hl|].
  split.
  - apply (Hrun 127 0); [lia|]. unfold in_group.
    change (effective_groupsize 512 128) with 128. lia.
  - apply (Hrun 128 1); [lia|]. unfold in_group.
    change (effective_groupsize 512 128) with 128. lia.
Defined.

(** X12: with the default group size of -1 and at least one input
    channel there is a single group: the module's [groupsize] is
    [in_features], every entry of [g_idx] is 0, and [scales] and [qzeros]
    have one row. *)
Theorem default_groupsize_is_one_group (i o : Z) (bits : N)
    (q : Autograd4bitQuantLinear.t) :
  0 < i ->
  Autograd4bitQuantLinear.__init__ i o (-1) false bits = Ok q ->
  Autograd4bitQuantLinear.groupsize q = i /\
  t_shape (Autograd4bitQuantLinear.scales q) = [1; o] /\
  (exists qz, Autograd4bitQuantLinear.qzeros q = Some qz /\
              t_shape qz = [1; o `div` 256 * (Z.of_N bits * 8)]) /\
  (exists t l, Autograd4bitQuantLinear.g_idx q = Some t /\
               t_storage t = Elems l /\
               Z.of_nat (length l) = i /\
               forall v, v ∈ l -> v = 0).
Proof.
  intros Hi Hq. apply init_grouped_inv in Hq as [_ ->].
  change (effective_groupsize i (-1)) with i. cbn.
  assert (Hn : - ((- i) `div` i) = 1).
  { rewrite Z.div_opp_l_z by (rewrite ?Z.mod_same; lia).
    rewrite Z.div_same by lia. lia. }
  rewrite Hn. split; [reflexivity|]. split; [reflexivity|].
  split; [eexists; split; reflexivity|].
  eexists _, _. split; [reflexivity|]. cbn. split; [reflexivity|].
  split; [rewrite length_fmap; apply length_range; lia|].
  intros v Hv. apply list_elem_of_fmap in Hv as (c & -> & Hc).
  apply elem_of_range in Hc. apply Z.div_small. lia.
Qed.

Lemma default_groupsize_is_one_group_witness :
  0 < 256 /\
  exists q,
    Autograd4bitQuantLinear.__init__ 256 256 (-1) false 4 = Ok q /\
    Autograd4bitQuantLinear.groupsize q = 256 /\
    t_shape (Autograd4bitQuantLinear.scales q) = [1; 256].
Proof.
  split; [lia|].
  destruct (init_succeeds 256 256 (-1) false 4) as [q Hq];
    [lia | lia | right; reflexivity|].
  destruct (default_groupsize_is_one_group 256 256 4 q ltac:(lia) Hq)
    as (Hg & Hs & _).
  exists q. auto.
Defined.

(** ** Module-graph substitution, continued *)

Lemma for_each_id {A} (f : A -> result A) (l : list A) :
  (forall x, x ∈ l -> f x = Ok x) -> for_each f l = Ok l.
Proof.
  induction l as [|x l IH]; intros Hall; [reflexivity|].
  rewrite for_each_cons, (Hall x (list_elem_of_here _ _)). cbn.
  rewrite IH by (intros x' Hx'; by apply Hall, list_elem_of_further).
  reflexivity.
Qed.



(** X13: with no target name the traversal returns the tree it was
    given, whatever the layout arguments, as soon as the fuel exceeds
    the depth of the tree. *)
Theorem substitution_without_targets_is_identity (groupsize : Z)
    (is_v1_model : bool) (bits : N) (fuel : nat) (m : module) (name : string) :
  (depth m < fuel)%nat ->
  make_quant_for_4bit_autograd ∅ groupsize is_v1_model bits fuel m name = Ok m.
Proof.
  revert m name. induction fuel as [|fuel IH]; intros m name Hd; [lia|].
  destruct m as [q | f tensors children]; [reflexivity|].
  rewrite make_quant_unfold.
  rewrite (for_each_id (visit_tensor ∅ name))
    by (intros [attr tmp] _; reflexivity). cbn.
  rewrite (for_each_id (visit_attr ∅ groupsize is_v1_model bits name))
    by (intros [attr tmp] _; reflexivity). cbn.
  rewrite for_each_id; [reflexivity|].
  intros [name1 child] Hin. unfold descend.
  pose proof (child_depth _ _ Hin) as Hc. cbn in Hc, Hd.
  rewrite IH by lia. reflexivity.
Qed.

Lemma substitution_without_targets_is_identity_witness :
  (depth sample_model < 4)%nat /\
  make_quant_for_4bit_autograd ∅ 128 false 4 4 sample_model "" = Ok sample_model.
Proof.
  assert (Hd : (depth sample_model < 4)%nat) by (cbn; lia).
  split; [exact Hd|].
  exact (substitution_without_targets_is_identity 128 false 4 4 sample_model "" Hd).
Defined.







(** ** Finding the layers *)

Section FindLayersFacts.
Variable in_layers : module -> bool.

Lemma find_layers_layer (m : module) (name : string) :
  in_layers m = true -> find_layers in_layers m name = {[name := m]}.
Proof. intros Hm. destruct m; cbn; rewrite Hm; reflexivity. Qed.

Lemma find_layers_module (f : option (Z * Z)) (tensors : list (string * tensor))
    (children : list (string * module)) (name : string) :
  in_layers (Module f tensors children) = false ->
  find_layers in_layers (Module f tensors children) name =
    foldl (fun res e => find_layers in_layers e.2 (qualify name e.1) ∪ res) ∅ children.
Proof. intros Hm. cbn. rewrite Hm. reflexivity. Qed.

Lemma update_all_lookup {A} (F : A -> gmap string module) (l : list A)
    (acc : gmap string module) (k : string) (v : module) :
  foldl (fun res e => F e ∪ res) acc l !! k = Some v ->
  acc !! k = Some v \/ exists e, e ∈ l /\ F e !! k = Some v.
Proof.
  revert acc. induction l as [|x l IH]; intros acc Hk; [by left|].
  cbn in Hk. apply IH in Hk as [Hk | (e & He & Hk)].
  - apply lookup_union_Some_raw in Hk as [Hk | [_ Hk]].
    + right. exists x. split; [apply list_elem_of_here | exact Hk].
    + by left.
  - right. exists e. split; [by apply list_elem_of_further | exact Hk].
Qed.

Lemma update_all_dom {A} (F : A -> gmap string module) (l : list A)
    (acc : gmap string module) :
  dom acc ⊆ dom (foldl (fun res e => F e ∪ res) acc l) /\
  (forall e, e ∈ l -> dom (F e) ⊆ dom (foldl (fun res e => F e ∪ res) acc l)).
Proof.
  revert acc. induction l as [|x l IH]; intros acc.
  - split; [reflexivity|]. intros e He. by apply elem_of_nil in He.
  - cbn. destruct (IH (F x ∪ acc)) as [Hacc Hall]. split.
    + etransitivity; [|exact Hacc]. rewrite dom_union. apply union_subseteq_r.
    + intros e He. apply elem_of_cons in He as [->|He]; [|by apply Hall].
      etransitivity; [|exact Hacc]. rewrite dom_union. apply union_subseteq_l.
Qed.

Lemma modules_of_child (f : option (Z * Z)) (tensors : list (string * tensor))
    (children : list (string * module)) (e : string * module) (v : module) :
  e ∈ children -> v ∈ modules_of e.2 -> v ∈ modules_of (Module f tensors children).
Proof.
  intros He Hv. cbn. apply list_elem_of_further.
  induction children as [|c children IH]; [by apply elem_of_nil in He|].
  cbn. apply elem_of_app. apply elem_of_cons in He as [->|He]; [by left|].
  right. by apply IH.
Qed.

Lemma find_layers_sound_depth (n : nat) (m : module) (name k : string) (v : module) :
  (depth m <= n)%nat ->
  find_layers in_layers m name !! k = Some v ->
  in_layers v = true /\ v ∈ modules_of m.
Proof.
  revert m name. induction n as [|n IH]; intros m name Hd Hk.
  - destruct m as [q | f ts cs]; [|cbn in Hd; lia].
    cbn in Hk. destruct (in_layers (Quant q)) eqn:Hq; [|by rewrite lookup_empty in Hk].
    apply lookup_singleton_Some in Hk as [_ <-].
    split; [exact Hq | apply list_elem_of_here].
  - destruct (in_layers m) eqn:Hm.
    + rewrite find_layers_layer in Hk by exact Hm.
      apply lookup_singleton_Some in Hk as [_ <-].
      split; [exact Hm | destruct m; apply list_elem_of_here].
    + destruct m as [q | f ts cs].
      * cbn in Hk. rewrite Hm in Hk. by rewrite lookup_empty in Hk.
      * rewrite find_layers_module in Hk by exact Hm.
        apply update_all_lookup in Hk as [Hk | (e & He & Hk)];
          [by rewrite lookup_empty in Hk|].
        pose proof (child_depth _ _ He) as Hc. cbn in Hd.
        destruct (IH e.2 _ ltac:(lia) Hk) as [Hv Hin].
        split; [exact Hv | by eapply modules_of_child].
Qed.

End FindLayersFacts.

(** X16: every entry of the dictionary [find_layers] returns is a module
    of the tree whose type is among [layers]; when the root itself is
    one, it is the only entry, under the name given, and nothing below
    it is reported; and a quantized module that is not of a listed type
    contributes nothing. *)
Theorem find_layers_reports_layers_only (in_layers : module -> bool) (m : module)
    (name : string) :
  (forall k v, find_layers in_layers m name !! k = Some v ->
     in_layers v = true /\ v ∈ modules_of m) /\
  (in_layers m = true -> find_layers in_layers m name = {[name := m]}) /\
  (forall q, m = Quant q -> in_layers m = false ->
     find_layers in_layers m name = ∅).
Proof.
  split; [|split].
  - intros k v. apply (find_layers_sound_depth in_layers (depth m)). lia.
  - apply find_layers_layer.
  - intros q -> Hq. cbn. rewrite Hq. reflexivity.
Qed.

Lemma find_layers_reports_layers_only_witness :
  find_layers sample_in_layers sample_model ""
    !! "block.proj" = Some sample_linear /\
  sample_linear ∈ modules_of sample_model.
Proof.
  assert (Hk : find_layers sample_in_layers sample_model ""
                 !! "block.proj" = Some sample_linear) by (vm_compute; reflexivity).
  split; [exact Hk|].
  exact (proj2 (proj1 (find_layers_reports_layers_only
                         sample_in_layers
                         sample_model "") _ _ Hk)).
Defined.

(** X17: in a module that is not itself a layer, a child that is a layer
    is reported under its qualified name [name.child] (or [child] at the
    root), and every name reported for a child is reported for the
    module. *)
Theorem find_layers_collects_children (in_layers : module -> bool)
    (f : option (Z * Z)) (tensors : list (string * tensor))
    (children : list (string * module)) (name attr : string) (child : module) :
  in_layers (Module f tensors children) = false ->
  (attr, child) ∈ children ->
  dom (find_layers in_layers child (qualify name attr))
    ⊆ dom (find_layers in_layers (Module f tensors children) name) /\
  (in_layers child = true ->
   qualify name attr ∈ dom (find_layers in_layers (Module f tensors children) name)).
Proof.
  intros Hm Hin. rewrite find_layers_module by exact Hm.
  destruct (update_all_dom
              (fun e => find_layers in_layers e.2 (qualify name e.1)) children ∅)
    as [_ Hall].
  specialize (Hall _ Hin). cbn in Hall. split; [exact Hall|].
  intros Hc. apply Hall. rewrite find_layers_layer by exact Hc.
  rewrite dom_singleton. by apply elem_of_singleton.
Qed.

Lemma find_layers_collects_children_witness :
  "block.proj"
    ∈ dom (find_layers sample_in_layers sample_model "").
Proof.
  destruct (find_layers_collects_children sample_in_layers
              None [] [("fc", Quant sample_quant);
                       ("block", Module None [] [("proj", sample_linear)])]
              "" "block" (Module None [] [("proj", sample_linear)]))
    as [Hup _];
    [vm_compute; reflexivity
    |apply list_elem_of_further, list_elem_of_here|].
  apply Hup.
  destruct (find_layers_collects_children sample_in_layers
              None [] [("proj", sample_linear)] "block" "proj" sample_linear)
    as [_ Hkey];
    [vm_compute; reflexivity | apply list_elem_of_here|].
  apply Hkey. vm_compute. reflexivity.
Defined.

(** ** The loaders' search and substitution *)




(** ** Precision conversion, continued *)

(** Induction on module trees. *)
Lemma module_induction (P : module -> Prop) :
  (forall q, P (Quant q)) ->
  (forall f tensors children,
     (forall e, e ∈ children -> P e.2) -> P (Module f tensors children)) ->
  forall m, P m.
Proof.
  intros Hq Hm m.
  assert (Hn : forall n m, (depth m <= n)%nat -> P m); [|apply (Hn (depth m)); lia].
  induction n as [|n IH]; intros [q | f ts cs] Hd; try apply Hq.
  - cbn in Hd. lia.
  - apply Hm. intros e He. apply IH.
    pose proof (child_depth _ _ He). cbn in Hd. lia.
Qed.

Lemma for_each_fmap {A B C} (f : B -> result C) (h : A -> B) (l : list A) :
  for_each f (h <$> l) = for_each (fun a => f (h a)) l.
Proof.
  induction l as [|a l IH]; [reflexivity|].
  rewrite fmap_cons, !for_each_cons, IH. reflexivity.
Qed.

Section ConversionFacts.
Context `{External}.

Lemma convert_module_unfold (d : dtype) (f : option (Z * Z))
    (tensors : list (string * tensor)) (children : list (string * module)) :
  convert_to d (Module f tensors children) =
    children' ← for_each (fun e => c ← convert_to d e.2; Ok (e.1, c)) children;
    Ok (Module f ((fun e => (e.1, cast_floating d e.2)) <$> tensors) children').
Proof.
  unfold convert_to. cbn. rewrite for_each_fmap. reflexivity.
Qed.

Lemma cast_floating_tensor_to (d : dtype) (t : tensor) :
  cast_floating d (tensor_to d t) = tensor_to d t.
Proof.
  unfold cast_floating. destruct (is_floating_point (tensor_to d t)); [|reflexivity].
  apply tensor_to_same, tensor_to_dtype.
Qed.

Lemma cast_floating_idem (d : dtype) (t : tensor) :
  cast_floating d (cast_floating d t) = cast_floating d t.
Proof.
  unfold cast_floating at 2 3. destruct (is_floating_point t) eqn:Hf.
  - apply cast_floating_tensor_to.
  - unfold cast_floating. by rewrite Hf.
Qed.

Lemma tensor_to_idem (d : dtype) (t : tensor) :
  tensor_to d (tensor_to d t) = tensor_to d t.
Proof. apply tensor_to_same, tensor_to_dtype. Qed.

Lemma convert_quant_eq (d : dtype) (q : Autograd4bitQuantLinear.t) (m1 : module) :
  convert_to d (Quant q) = Ok m1 ->
  forall d', exists q1 q2,
    m1 = Quant q1 /\ convert_to d' (Quant q1) = Ok (Quant q2) /\
    (d' = d -> q2 = q1).
Proof.
  unfold convert_to. cbn. unfold recast_buffers. cbn. intros Hc d'.
  destruct (Autograd4bitQuantLinear.is_v1_model q) eqn:Hv1.
  - destruct (Autograd4bitQuantLinear.zeros q) as [z|] eqn:Hz; cbn in Hc; [|discriminate].
    injection Hc as <-. eexists _, _. split; [reflexivity|]. cbn.
    split; [reflexivity|]. intros ->.
    rewrite !tensor_to_cast_floating, !tensor_to_idem, cast_floating_idem.
    destruct q as [? ? ? ? ? ? ? ? [qz|] ? [gi|] ? ?]; cbn in *; subst;
      rewrite ?cast_floating_idem; reflexivity.
  - cbn in Hc. injection Hc as <-. eexists _, _. split; [reflexivity|]. cbn.
    split; [reflexivity|]. intros ->.
    rewrite !tensor_to_cast_floating, !tensor_to_idem, cast_floating_idem.
    destruct q as [? ? ? ? ? ? ? [z|] [qz|] ? [gi|] ? ?]; cbn in *; subst;
      rewrite ?cast_floating_idem; reflexivity.
Qed.

Lemma convert_settles (d : dtype) (m : module) :
  forall m1, convert_to d m = Ok m1 ->
  convert_to d m1 = Ok m1 /\ forall d', exists m2, convert_to d' m1 = Ok m2.
Proof.
  induction m as [q | f tensors children IH] using module_induction; intros m1 Hc.
  - split.
    + destruct (convert_quant_eq d q m1 Hc d) as (q1 & q2 & -> & Hq & Heq).
      rewrite Hq, (Heq eq_refl). reflexivity.
    + intros d'. destruct (convert_quant_eq d q m1 Hc d') as (q1 & q2 & -> & Hq & _).
      eauto.
  - rewrite convert_module_unfold in Hc.
    apply bind_ok_inv in Hc as (cs' & Hcs & Hc). injection Hc as <-.
    apply for_each_ok_inv in Hcs.
    assert (Hall : forall e', e' ∈ cs' ->
              convert_to d e'.2 = Ok e'.2 /\
              forall d', exists m2, convert_to d' e'.2 = Ok m2).
    { intros e' He'.
      destruct (Forall2_elem_of_r _ _ _ _ Hcs He') as (e & He & Hee').
      apply bind_ok_inv in Hee' as (c & Hconv & Hee'). injection Hee' as <-.
      apply (IH e He c Hconv). }
    split.
    + rewrite convert_module_unfold.
      rewrite for_each_id.
      * cbn. f_equal. f_equal. rewrite <- list_fmap_compose.
        apply list_fmap_ext. intros _ [a t] _. cbn. by rewrite cast_floating_idem.
      * intros [a c] He'. destruct (Hall _ He') as [Hfix _]. cbn in *.
        rewrite Hfix. reflexivity.
    + intros d'. rewrite convert_module_unfold.
      destruct (for_each_all_ok (fun e => c ← convert_to d' e.2; Ok (e.1, c)) cs')
        as [cs2 Hcs2].
      { intros e' He'. destruct (Hall _ He') as [_ Hany].
        destruct (Hany d') as [m2 Hm2]. rewrite Hm2. cbn. eauto. }
      rewrite Hcs2. cbn. eauto.
Qed.

Lemma convert_raises (d : dtype) (m : module) (e : exn) :
  convert_to d m = Raise e -> e = AttributeError "zeros".
Proof.
  induction m as [q | f tensors children IH] using module_induction.
  - unfold convert_to. cbn. unfold recast_buffers. cbn.
    destruct (Autograd4bitQuantLinear.is_v1_model q); cbn; [|discriminate].
    destruct (Autograd4bitQuantLinear.zeros q); cbn; [discriminate|]. congruence.
  - rewrite convert_module_unfold. intros Hc.
    apply bind_raise_inv in Hc as [Hc | (cs' & _ & Hc)]; [|discriminate].
    apply for_each_raise_inv in Hc as (x & Hx & Hc).
    apply bind_raise_inv in Hc as [Hc | (c & _ & Hc)]; [|discriminate].
    apply (IH x Hx Hc).
Qed.

End ConversionFacts.

(** X19: the precision conversions are idempotent: a model that
    [model_to_half] (or [model_to_float]) has returned is returned as it
    is by a second call. *)
Theorem precision_conversion_idempotent `{External} (model model1 : module) :
  (model_to_half model = Ok model1 -> model_to_half model1 = Ok model1) /\
  (model_to_float model = Ok model1 -> model_to_float model1 = Ok model1).
Proof.
  split; intros Hm.
  - apply (proj1 (convert_settles Float16 model model1 Hm)).
  - apply (proj1 (convert_settles Float32 model model1 Hm)).
Qed.

Lemma precision_conversion_idempotent_witness :
  exists model1,
    @model_to_half sample_external sample_model = Ok model1 /\
    @model_to_half sample_external model1 = Ok model1.
Proof.
  destruct (@model_to_half sample_external sample_model) as [model1|] eqn:Hm;
    [|vm_compute in Hm; discriminate].
  exists model1. split; [reflexivity|].
  exact (proj1 (@precision_conversion_idempotent sample_external sample_model model1) Hm).
Defined.

(** X20: the only way a precision conversion fails is the missing
    [zeros] buffer of a module flagged as v1 layout: it raises
    [AttributeError] for [zeros] and nothing else. *)
Theorem precision_conversion_only_fails_on_missing_zeros `{External}
    (model : module) (e : exn) :
  (model_to_half model = Raise e -> e = AttributeError "zeros") /\
  (model_to_float model = Raise e -> e = AttributeError "zeros") /\
  (model_to_half model = Raise e \/ model_to_float model = Raise e ->
   ~ zeros_present model).
Proof.
  split; [apply (convert_raises Float16)|]. split; [apply (convert_raises Float32)|].
  intros Hr Hz. destruct Hr as [Hr | Hr].
  - destruct (convert_total Float16 model Hz) as [m' Hm'].
    unfold model_to_half, module_half in Hr. unfold convert_to, cast_floating in Hm'.
    unfold half in Hr. congruence.
  - destruct (convert_total Float32 model Hz) as [m' Hm'].
    unfold model_to_float, module_float in Hr. unfold convert_to, cast_floating in Hm'.
    unfold float in Hr. congruence.
Qed.

Lemma precision_conversion_only_fails_on_missing_zeros_witness :
  @model_to_half sample_external
    (Module None [] [("fc", Quant sample_quant_without_zeros)])
    = Raise (AttributeError "zeros") /\
  ~ zeros_present (Module None [] [("fc", Quant sample_quant_without_zeros)]).
Proof.
  assert (Hr : @model_to_half sample_external
                 (Module None [] [("fc", Quant sample_quant_without_zeros)])
               = Raise (AttributeError "zeros")) by reflexivity.
  split; [exact Hr|].
  apply (proj2 (proj2 (@precision_conversion_only_fails_on_missing_zeros
                         sample_external _ (AttributeError "zeros")))).
  left. exact Hr.
Defined.

Lemma converted_keeps_packed `{External} (d : dtype) (model model1 : module)
    (path : list string) (q : Autograd4bitQuantLinear.t) :
  convert_to d model = Ok model1 ->
  submodule model path = Some (Quant q) ->
  packed_integer q ->
  exists q1,
    submodule model1 path = Some (Quant q1) /\
    t_dtype (Autograd4bitQuantLinear.scales q1) = d /\
    t_dtype (Autograd4bitQuantLinear.bias q1) = d /\
    Autograd4bitQuantLinear.qweight q1 = Autograd4bitQuantLinear.qweight q /\
    Autograd4bitQuantLinear.qzeros q1 = Autograd4bitQuantLinear.qzeros q /\
    Autograd4bitQuantLinear.g_idx q1 = Autograd4bitQuantLinear.g_idx q /\
    packed_integer q1.
Proof.
  intros Hc Hs Hp. destruct (convert_converted d model model1 Hc) as [_ Hq].
  destruct (Hq path q Hs) as (q1 & Hs1 & _ & Hsd & _ & Hbd & _ & _ & _ & _ & Hpk).
  destruct (Hpk Hp) as (Hw & Hqz & Hgi).
  exists q1. repeat (split; [assumption|]).
  destruct Hp as (Hpw & Hpz & Hpg). unfold packed_integer.
  rewrite Hw, Hqz, Hgi. auto.
Qed.

(** X21: a conversion can always be followed by the other one, which
    does not fail; after [model_to_float] then [model_to_half] (and the
    other way round) every quantized module is still in its place, its
    [scales] and [bias] have the precision asked for last, and its
    integer buffers [qweight], [qzeros] and [g_idx] are those the model
    started with. *)
Theorem precision_round_trip_keeps_packed_buffers `{External}
    (model model1 : module) :
  let kept (d : dtype) (model2 : module) :=
    forall path q,
      submodule model path = Some (Quant q) -> packed_integer q ->
      exists q2,
        submodule model2 path = Some (Quant q2) /\
        t_dtype (Autograd4bitQuantLinear.scales q2) = d /\
        t_dtype (Autograd4bitQuantLinear.bias q2) = d /\
        Autograd4bitQuantLinear.qweight q2 = Autograd4bitQuantLinear.qweight q /\
        Autograd4bitQuantLinear.qzeros q2 = Autograd4bitQuantLinear.qzeros q /\
        Autograd4bitQuantLinear.g_idx q2 = Autograd4bitQuantLinear.g_idx q in
  (model_to_float model = Ok model1 ->
   exists model2, model_to_half model1 = Ok model2 /\ kept Float16 model2) /\
  (model_to_half model = Ok model1 ->
   exists model2, model_to_float model1 = Ok model2 /\ kept Float32 model2).
Proof.
  cbn zeta.
  assert (Hgen : forall d d', convert_to d model = Ok model1 ->
            exists model2, convert_to d' model1 = Ok model2 /\
              forall path q,
                submodule model path = Some (Quant q) -> packed_integer q ->
                exists q2,
                  submodule model2 path = Some (Quant q2) /\
                  t_dtype (Autograd4bitQuantLinear.scales q2) = d' /\
                  t_dtype (Autograd4bitQuantLinear.bias q2) = d' /\
                  Autograd4bitQuantLinear.qweight q2 = Autograd4bitQuantLinear.qweight q /\
                  Autograd4bitQuantLinear.qzeros q2 = Autograd4bitQuantLinear.qzeros q /\
                  Autograd4bitQuantLinear.g_idx q2 = Autograd4bitQuantLinear.g_idx q).
  { intros d d' Hc.
    destruct (proj2 (convert_settles d model model1 Hc) d') as [model2 Hc2].
    exists model2. split; [exact Hc2|]. intros path q Hs Hp.
    destruct (converted_keeps_packed d model model1 path q Hc Hs Hp)
      as (q1 & Hs1 & _ & _ & Hw1 & Hz1 & Hg1 & Hp1).
    destruct (converted_keeps_packed d' model1 model2 path q1 Hc2 Hs1 Hp1)
      as (q2 & Hs2 & Hsd & Hbd & Hw2 & Hz2 & Hg2 & _).
    exists q2. rewrite Hw2, Hz2, Hg2. auto 10. }
  split; intros Hm.
  - apply (Hgen Float32 Float16 Hm).
  - apply (Hgen Float16 Float32 Hm).
Qed.

Lemma precision_round_trip_keeps_packed_buffers_witness :
  exists model1 model2 q2,
    @model_to_float sample_external sample_model = Ok model1 /\
    @model_to_half sample_external model1 = Ok model2 /\
    submodule model2 ["fc"] = Some (Quant q2) /\
    t_dtype (Autograd4bitQuantLinear.scales q2) = Float16 /\
    Autograd4bitQuantLinear.qweight q2 = sample_qweight.
Proof.
  destruct (@model_to_float sample_external sample_model) as [model1|] eqn:Hm;
    [|vm_compute in Hm; discriminate].
  destruct (proj1 (@precision_round_trip_keeps_packed_buffers sample_external
                     sample_model model1) Hm) as (model2 & Hm2 & Hkept).
  destruct (Hkept ["fc"] sample_quant eq_refl) as (q2 & Hs & Hsd & _ & Hw & _).
  { repeat split; cbn; intros t [= <-]; reflexivity. }
  exists model1, model2, q2. auto.
Defined.

(** X22: a module that [__init__] has just built can be converted: on it
    [model_to_half] and [model_to_float] succeed, give [scales], [bias]
    and (v1 layout) [zeros] the target precision, and return the int32
    buffers [qweight], [qzeros] and [g_idx] of the construction. *)
Theorem fresh_module_converts `{External} (i o gs : Z) (is_v1_model : bool)
    (bits : N) (q : Autograd4bitQuantLinear.t) :
  Autograd4bitQuantLinear.__init__ i o gs is_v1_model bits = Ok q ->
  let converted (d : dtype) (q' : Autograd4bitQuantLinear.t) :=
    t_dtype (Autograd4bitQuantLinear.scales q') = d /\
    t_dtype (Autograd4bitQuantLinear.bias q') = d /\
    (is_v1_model = true ->
     exists z, Autograd4bitQuantLinear.zeros q' = Some z /\ t_dtype z = d) /\
    Autograd4bitQuantLinear.qweight q' = Autograd4bitQuantLinear.qweight q /\
    Autograd4bitQuantLinear.qzeros q' = Autograd4bitQuantLinear.qzeros q /\
    Autograd4bitQuantLinear.g_idx q' = Autograd4bitQuantLinear.g_idx q /\
    t_dtype (Autograd4bitQuantLinear.qweight q') = Int32 in
  (exists q', model_to_half (Quant q) = Ok (Quant q') /\ converted Float16 q') /\
  (exists q', model_to_float (Quant q) = Ok (Quant q') /\ converted Float32 q').
Proof.
  intros Hq. cbn zeta.
  assert (Hp : packed_integer q) by apply (init_packed_integer _ _ _ _ _ _ Hq).
  assert (Hv1 : Autograd4bitQuantLinear.is_v1_model q = is_v1_model).
  { destruct is_v1_model;
      [apply init_v1_inv in Hq | apply init_grouped_inv in Hq as [_ Hq]];
      subst q; reflexivity. }
  assert (Hz : zeros_present (Quant q)).
  { cbn. rewrite Hv1. intros ->. apply init_v1_inv in Hq. subst q. cbn. eauto. }
  assert (Hgen : forall d, exists q', convert_to d (Quant q) = Ok (Quant q') /\
            t_dtype (Autograd4bitQuantLinear.scales q') = d /\
            t_dtype (Autograd4bitQuantLinear.bias q') = d /\
            (is_v1_model = true ->
             exists z, Autograd4bitQuantLinear.zeros q' = Some z /\ t_dtype z = d) /\
            Autograd4bitQuantLinear.qweight q' = Autograd4bitQuantLinear.qweight q /\
            Autograd4bitQuantLinear.qzeros q' = Autograd4bitQuantLinear.qzeros q /\
            Autograd4bitQuantLinear.g_idx q' = Autograd4bitQuantLinear.g_idx q /\
            t_dtype (Autograd4bitQuantLinear.qweight q') = Int32).
  { intros d. destruct (convert_total d (Quant q) Hz) as [m' Hm'].
    destruct (convert_converted d _ _ Hm') as [_ Hconv].
    destruct (Hconv [] q eq_refl)
      as (q' & Hs & _ & Hsd & _ & Hbd & Hzeros & _ & _ & _ & Hpk).
    injection Hs as ->. destruct (Hpk Hp) as (Hw & Hqz & Hgi).
    exists q'. split; [exact Hm'|]. split; [exact Hsd|]. split; [exact Hbd|].
    split.
    { intros Hv. rewrite <- Hv1 in Hv. destruct (Hzeros Hv) as (z & _ & Hz' & Hzd).
      exists (tensor_to d z). split; [exact Hz' | exact Hzd]. }
    split; [exact Hw|]. split; [exact Hqz|]. split; [exact Hgi|].
    rewrite Hw. exact (proj1 Hp). }
  split; [apply (Hgen Float16) | apply (Hgen Float32)].
Qed.

Lemma fresh_module_converts_witness :
  exists q q',
    Autograd4bitQuantLinear.__init__ 256 256 128 false 4 = Ok q /\
    @model_to_half sample_external (Quant q) = Ok (Quant q') /\
    t_dtype (Autograd4bitQuantLinear.scales q') = Float16 /\
    Autograd4bitQuantLinear.g_idx q' = Autograd4bitQuantLinear.g_idx q.
Proof.
  destruct (init_succeeds 256 256 128 false 4) as [q Hq];
    [lia | lia | right; reflexivity|].
  destruct (@fresh_module_converts sample_external _ _ _ _ _ q Hq)
    as [(q' & Hm & Hsd & _ & _ & _ & _ & Hgi & _) _].
  exists q, q'. auto.
Defined.

(** ** The training path of the forward *)



